(** * Span extraction and filtering of [pdf_loader.py]

    A shallow embedding of [SpanInfo], [PDFTextExtractor] and the module-level
    helpers of [src/pdf_loader.py], followed by the properties the
    specification states about them.

    Conventions of the embedding:
    - a Python [str] is a [string]; its characters are the code points
      below 256, on which [str.isspace], [str.isalnum] and [str.lower] are
      tabulated as CPython has them;
    - a Python number held by a run or a record (font sizes, coordinates,
      the bounds of the filter) is a [num]: a finite value, as the rational
      it denotes, an infinity, or NaN; only comparisons are made on them, and
      every comparison with NaN is false; the ratio of two character counts
      is an exact rational of [Q];
    - a dictionary entry that the code reads with [get] and handles itself
      (font, flags, colour) holds an [obj]: an integer, a string or [None];
    - a Python [int] is a [Z], with [&] as [Z.land];
    - a raised exception is the [Err] case of [result]; a [try] block is a
      computation over the local list it appends to, whose contents survive
      the exception;
    - [logger.warning] appends to an explicit log; [logger.info] and
      [logger.debug] have no influence on any returned value and are left out. *)

From Stdlib Require Import ZArith QArith Bool List Sorted String Ascii DecimalString Lia.
Import ListNotations.

Local Open Scope string_scope.
Local Open Scope Z_scope.

(** ** Exceptions *)

Module Py.

Inductive exn_class : Type :=
| ValueError
| TypeError
| KeyError
| AttributeError
| FileNotFoundError
| RuntimeError
| FitzFileNotFoundError
| OtherException.

(** [FileNotFoundError] is the builtin class.  [FitzFileNotFoundError] is
    [fitz.FileNotFoundError], which the document library declares itself as a
    subclass of [RuntimeError] and raises for a path that does not exist: an
    [except FileNotFoundError] clause does not catch it. *)

(** An exception instance: its class and [str(e)]. *)
Record exn : Type := Exn { exn_cls : exn_class; exn_msg : string }.

Inductive result (A : Type) : Type :=
| Ok (a : A)
| Err (e : exn).
Arguments Ok {A} a.
Arguments Err {A} e.

(** The values a dictionary entry read with [span.get(key, default)] may
    hold: an integer, a string or [None]. *)
Inductive obj : Type :=
| Int (z : Z)
| Str (s : string)
| NoneObj.

(** [type(v).__name__] *)
Definition type_name (v : obj) : string :=
  match v with
  | Int _ => "int"
  | Str _ => "str"
  | NoneObj => "NoneType"
  end.

(** *** Numbers *)

(** A float, or the int it equals: finite, infinite or NaN. *)
Inductive num : Type :=
| Fin (q : Q)
| PInf
| NInf
| NaN.

(** [a <= b]: false as soon as one side is NaN. *)
Definition num_le (a b : num) : bool :=
  match a, b with
  | NaN, _ => false
  | _, NaN => false
  | NInf, _ => true
  | _, PInf => true
  | Fin x, Fin y => Qle_bool x y
  | PInf, _ => false
  | Fin _, NInf => false
  end.

(** [a < b]: false as soon as one side is NaN. *)
Definition num_lt (a b : num) : bool :=
  match a, b with
  | NaN, _ => false
  | _, NaN => false
  | PInf, _ => false
  | _, NInf => false
  | NInf, _ => true
  | Fin _, PInf => true
  | Fin x, Fin y => negb (Qle_bool y x)
  end.

(** [math.isnan(a)] *)
Definition is_nan (a : num) : bool :=
  match a with
  | NaN => true
  | _ => false
  end.

(** *** Characters and strings *)

Definition code (c : ascii) : Z := Z.of_N (N_of_ascii c).

Definition between (lo hi x : Z) : bool := (lo <=? x) && (x <=? hi).

(** [c.isspace()] for one character. *)
Definition char_isspace (c : ascii) : bool :=
  let n := code c in
  between 9 13 n || between 28 32 n || (n =? 133) || (n =? 160).

(** [c.isalnum()] for one character. *)
Definition char_isalnum (c : ascii) : bool :=
  let n := code c in
  between 48 57 n || between 65 90 n || between 97 122 n
  || (n =? 170) || (n =? 178) || (n =? 179) || (n =? 181) || (n =? 185)
  || (n =? 186) || between 188 190 n
  || between 192 214 n || between 216 246 n || between 248 255 n.

(** [c.lower()] for one character. *)
Definition char_lower (c : ascii) : ascii :=
  let n := code c in
  if between 65 90 n || between 192 214 n || between 216 222 n
  then ascii_of_N (Z.to_N (n + 32))
  else c.

Fixpoint lower (s : string) : string :=
  match s with
  | EmptyString => EmptyString
  | String c s' => String (char_lower c) (lower s')
  end.

Fixpoint lstrip (s : string) : string :=
  match s with
  | EmptyString => EmptyString
  | String c s' => if char_isspace c then lstrip s' else s
  end.

(** Removes trailing white space: a character is dropped when it is white
    space and everything after it has been dropped. *)
Fixpoint rstrip (s : string) : string :=
  match s with
  | EmptyString => EmptyString
  | String c s' =>
      match rstrip s' with
      | EmptyString => if char_isspace c then EmptyString else String c EmptyString
      | r => String c r
      end
  end.

(** [s.strip()] *)
Definition strip (s : string) : string := rstrip (lstrip s).

Fixpoint all_chars (p : ascii -> bool) (s : string) : bool :=
  match s with
  | EmptyString => true
  | String c s' => p c && all_chars p s'
  end.

(** [s.isspace()]: at least one character, and all of them white space. *)
Definition isspace (s : string) : bool :=
  match s with
  | EmptyString => false
  | _ => all_chars char_isspace s
  end.

(** [len(s)] *)
Definition len (s : string) : Z := Z.of_nat (String.length s).

(** [sub in s] *)
Fixpoint contains (sub s : string) : bool :=
  String.prefix sub s ||
  match s with
  | EmptyString => false
  | String _ s' => contains sub s'
  end.

(** [sum(1 for c in s if p(c))] *)
Fixpoint count_chars (p : ascii -> bool) (s : string) : Z :=
  match s with
  | EmptyString => 0
  | String c s' => (if p c then 1 else 0) + count_chars p s'
  end.

(** *** The format specification [06x] *)

Definition hex_digit (d : Z) : ascii :=
  match String.get (Z.to_nat d) "0123456789abcdef" with
  | Some c => c
  | None => "0"%char
  end.

(** The hexadecimal digits of a positive [n], most significant first,
    in front of [acc]; [fuel] bounds the number of digits. *)
Fixpoint hex_digits (fuel : nat) (n : Z) (acc : string) : string :=
  match fuel with
  | O => acc
  | S fuel' =>
      if n <=? 0 then acc
      else hex_digits fuel' (n / 16) (String (hex_digit (n mod 16)) acc)
  end.

(** [format(n, "x")] for [n >= 0]. *)
Definition hex (n : Z) : string :=
  if n =? 0 then "0" else hex_digits (S (Z.to_nat (Z.log2 n))) n "".

Fixpoint zeros (k : nat) : string :=
  match k with
  | O => ""
  | S k' => String "0"%char (zeros k')
  end.

(** [s.zfill(width)] for a string of digits. *)
Definition zfill (width : nat) (s : string) : string :=
  zeros (width - String.length s) ++ s.

(** [format(c, "06x")] for an integer: the sign counts in the width, and
    the padding zeros come after it. *)
Definition format_06x_int (c : Z) : string :=
  if c <? 0 then "-" ++ zfill 5 (hex (- c)) else zfill 6 (hex c).

(** [format(v, "06x")]: strings refuse the code [x] with a [ValueError],
    [None] refuses any non-empty specification with a [TypeError]. *)
Definition format_06x (v : obj) : result string :=
  match v with
  | Int c => Ok (format_06x_int c)
  | Str _ => Err (Exn ValueError "Unknown format code 'x' for object of type 'str'")
  | NoneObj => Err (Exn TypeError "unsupported format string passed to NoneType.__format__")
  end.

(** [v == 0] *)
Definition eq_zero (v : obj) : bool :=
  match v with
  | Int c => c =? 0
  | _ => false
  end.

End Py.

Import Py.

(** ** State and exceptions

    A computation over a mutable state [S] that may raise.  The state reached
    when the exception is raised is kept: what a loop has appended to a list
    before it fails is still in the list in the [except] clause. *)

Definition Eff (S A : Type) : Type := S -> result A * S.

Definition ret {S A} (a : A) : Eff S A := fun s => (Ok a, s).

Definition bind {S A B} (m : Eff S A) (k : A -> Eff S B) : Eff S B :=
  fun s =>
    match m s with
    | (Ok a, s') => k a s'
    | (Err e, s') => (Err e, s')
    end.

Definition raise {S A} (e : exn) : Eff S A := fun s => (Err e, s).

Definition lift {S A} (r : result A) : Eff S A := fun s => (r, s).

Definition modify {S} (f : S -> S) : Eff S unit := fun s => (Ok tt, f s).

(** [try: m  except Exception as e: h e] *)
Definition try_except {S A} (m : Eff S A) (h : exn -> Eff S A) : Eff S A :=
  fun s =>
    match m s with
    | (Ok a, s') => (Ok a, s')
    | (Err e, s') => h e s'
    end.

Declare Scope eff_scope.
Delimit Scope eff_scope with eff.
Notation "x <- m ;; k" := (bind m (fun x => k))
  (at level 61, m at next level, right associativity) : eff_scope.
Notation "m ;;; k" := (bind m (fun _ => k))
  (at level 61, right associativity) : eff_scope.

(** [for x in xs: body x], where [continue] is the normal end of [body]. *)
Fixpoint for_each {S A} (xs : list A) (body : A -> Eff S unit) : Eff S unit :=
  match xs with
  | [] => ret tt
  | x :: xs' => bind (body x) (fun _ => for_each xs' body)
  end.

(** ** Dictionaries of the document library

    [page.get_text("dict")] is a tree of dictionaries with fixed keys; a field
    is [None] when the key is absent.  The entries that the code reads with
    an index ([text], [bbox], [size]) have the types the library gives them: a
    string, a sequence of numbers, a number, NaN included.  The entries that
    it reads with [get] and a default ([font], [flags], [color]) hold any
    [obj], so that a [None] or a value of another type under the key takes
    the path it takes in the code. *)

Record RawSpan : Type := {
  s_text  : option string;
  s_bbox  : option (list num);
  s_size  : option num;
  s_font  : option obj;
  s_flags : option obj;
  s_color : option obj
}.

Record RawLine : Type := { l_spans : option (list RawSpan) }.

Record RawBlock : Type := { b_lines : option (list RawLine) }.

(** [p_blocks] is the outcome of [page.get_text("dict")["blocks"]]. *)
Record RawPage : Type := { p_blocks : result (list RawBlock) }.

(** [d[key]]: a [KeyError] whose text is the key quoted. *)
Definition getitem {A} (key : string) (field : option A) : result A :=
  match field with
  | Some v => Ok v
  | None => Err (Exn KeyError ("'" ++ key ++ "'"))
  end.

(** [d.get(key, default)] *)
Definition dict_get {A} (field : option A) (default : A) : A :=
  match field with
  | Some v => v
  | None => default
  end.

(** ** [SpanInfo] *)

Record SpanInfo : Type := {
  text : string;
  bbox : num * num * num * num;
  size : num;
  page : Z;
  font : obj;
  is_bold : bool;
  is_italic : bool;
  color : string
}.

Definition bbox_coords (b : num * num * num * num) : list num :=
  let '(x1, y1, x2, y2) := b in [x1; y1; x2; y2].

(** The constructor of the dataclass followed by [__post_init__].  The box
    arrives as a tuple of any length; an instance exists only when it has
    four coordinates, which the record keeps as they are.  The font is
    stored as it is given, a string or not. *)
Definition SpanInfo_init (text : string) (bbox : list num) (size : num) (page : Z)
    (font : obj) (is_bold is_italic : bool) (color : string)
  : result SpanInfo :=
  if page <? 1 then Err (Exn ValueError "Page number must be positive")
  else if num_le size (Fin 0) then Err (Exn ValueError "Font size must be positive")
  else
    match bbox with
    | [x1; y1; x2; y2] =>
        Ok {| text := text; bbox := (x1, y1, x2, y2); size := size; page := page;
              font := font; is_bold := is_bold; is_italic := is_italic;
              color := color |}
    | _ => Err (Exn ValueError "BBox must have 4 coordinates")
    end.

(** ** [PDFTextExtractor] *)

Record PDFTextExtractor : Type := {
  min_font_size : num;
  max_font_size : num
}.

(** [PDFTextExtractor()] with the default arguments of [__init__]. *)
Definition default_extractor : PDFTextExtractor :=
  {| min_font_size := Fin 6; max_font_size := Fin 72 |}.

Record FontInfo : Type := {
  font_name : obj;
  fi_is_bold : bool;
  fi_is_italic : bool;
  fi_flags : obj
}.

(** [bool(n)] of an integer *)
Definition truthy (n : Z) : bool := negb (n =? 0).

(** [bool(flags & mask)]: only an integer has [&] with an int. *)
Definition flag_set (flags : obj) (mask : Z) : result bool :=
  match flags with
  | Int g => Ok (truthy (Z.land g mask))
  | _ => Err (Exn TypeError ("unsupported operand type(s) for &: '"
                            ++ type_name flags ++ "' and 'int'"))
  end.

(** [sub in font_name.lower()]: only a string has [lower]. *)
Definition name_contains (sub : string) (font_name : obj) : result bool :=
  match font_name with
  | Str f => Ok (contains sub (lower f))
  | _ => Err (Exn AttributeError ("'" ++ type_name font_name
                                 ++ "' object has no attribute 'lower'"))
  end.

(** [a or b] of two tests: [b] is evaluated only when [a] is false. *)
Definition or_else (a b : result bool) : result bool :=
  match a with
  | Ok true => Ok true
  | Ok false => b
  | Err e => Err e
  end.

Definition _parse_font_info (span : RawSpan) : result FontInfo :=
  let font_name := dict_get (s_font span) (Str "") in
  let flags := dict_get (s_flags span) (Int 0) in
  match or_else (flag_set flags 16) (name_contains "bold" font_name) with
  | Err e => Err e
  | Ok is_bold =>
      match or_else (flag_set flags 2) (name_contains "italic" font_name) with
      | Err e => Err e
      | Ok is_italic =>
          Ok {| font_name := font_name; fi_is_bold := is_bold;
                fi_is_italic := is_italic; fi_flags := flags |}
      end
  end.

Definition _parse_color (span : RawSpan) : result string :=
  let color := dict_get (s_color span) (Int 0) in
  if eq_zero color then Ok "black"
  else
    match format_06x color with
    | Ok digits => Ok ("#" ++ digits)
    | Err e =>
        match exn_cls e with
        | ValueError | TypeError => Ok "black"
        | _ => Err e
        end
    end.

Definition Qlt_bool (a b : Q) : bool := negb (Qle_bool b a).

Definition _is_mostly_special_chars (text : string) : bool :=
  if len text <? 3 then false
  else
    let alphanumeric_count := count_chars char_isalnum text in
    Qlt_bool (inject_Z alphanumeric_count / inject_Z (len text)) (3 # 10).

Definition _is_valid_bbox (bbox : num * num * num * num) : bool :=
  let '(x1, y1, x2, y2) := bbox in
  if num_le x2 x1 || num_le y2 y1 then false
  else if existsb (fun coord => num_lt coord (Fin 0) || num_lt (Fin 10000) coord)
                  (bbox_coords bbox)
  then false
  else true.

(** One turn of the loop of [_filter_spans]: each test that holds is a
    [continue], which leaves [filtered] as it is. *)
Definition filter_step (self : PDFTextExtractor) (filtered : list SpanInfo)
    (span : SpanInfo) : list SpanInfo :=
  if negb (num_le (min_font_size self) (size span)
           && num_le (size span) (max_font_size self))
  then filtered
  else if len (text span) <? 2 then filtered
  else if _is_mostly_special_chars (text span) then filtered
  else if negb (_is_valid_bbox (bbox span)) then filtered
  else (filtered ++ [span])%list.

Definition _filter_spans (self : PDFTextExtractor) (spans : list SpanInfo)
  : list SpanInfo :=
  fold_left (filter_step self) spans [].

(** ** Page and document extraction *)

(** [str(n)] of an integer *)
Definition str_int (n : Z) : string := NilZero.string_of_int (Z.to_int n).

(** The body of the innermost loop of [_extract_page_spans] up to the
    construction of the record: [Ok None] is the [continue] taken on empty
    text, [Ok (Some r)] the record that the loop appends, [Err e] an exception
    raised on the way. *)
Definition build_span (span : RawSpan) (page_num : Z) : result (option SpanInfo) :=
  match getitem "text" (s_text span) with
  | Err e => Err e
  | Ok raw_text =>
      let text := strip raw_text in
      if (match text with EmptyString => true | _ => false end) || isspace text
      then Ok None
      else
        match _parse_font_info span with
        | Err e => Err e
        | Ok font_info =>
            match _parse_color span with
            | Err e => Err e
            | Ok color =>
                match getitem "bbox" (s_bbox span) with
                | Err e => Err e
                | Ok bbox =>
                    match getitem "size" (s_size span) with
                    | Err e => Err e
                    | Ok size =>
                        match SpanInfo_init text bbox size page_num
                                (font_name font_info) (fi_is_bold font_info)
                                (fi_is_italic font_info) color with
                        | Err e => Err e
                        | Ok span_info => Ok (Some span_info)
                        end
                    end
                end
            end
        end
  end.

Local Open Scope eff_scope.

(** The statements inside the [try] of [_extract_page_spans], over the local
    list [spans], one definition for each nested loop body. *)
Definition walk_span (page_num : Z) (span : RawSpan) : Eff (list SpanInfo) unit :=
  built <- lift (build_span span page_num) ;;
  match built with
  | None => ret tt
  | Some span_info => modify (fun spans => (spans ++ [span_info])%list)
  end.

Definition walk_line (page_num : Z) (line : RawLine) : Eff (list SpanInfo) unit :=
  spans <- lift (getitem "spans" (l_spans line)) ;;
  for_each spans (walk_span page_num).

Definition walk_block (page_num : Z) (block : RawBlock) : Eff (list SpanInfo) unit :=
  match b_lines block with
  | None => ret tt
  | Some lines => for_each lines (walk_line page_num)
  end.

Definition walk_page (page : RawPage) (page_num : Z) : Eff (list SpanInfo) unit :=
  blocks <- lift (p_blocks page) ;;
  for_each blocks (walk_block page_num).

(** The log of [logger.warning] calls, oldest first. *)
Definition Log : Type := list string.

Definition logger_warning (msg : string) : Eff Log unit :=
  modify (fun log => (log ++ [msg])%list).

Definition _extract_page_spans (page : RawPage) (page_num : Z)
  : Eff Log (list SpanInfo) :=
  match walk_page page page_num [] with
  | (Ok _, spans) => ret spans
  | (Err e, spans) =>
      logger_warning ("Error extracting spans from page " ++ str_int page_num
                      ++ ": " ++ exn_msg e) ;;;
      ret spans
  end.

(** The loop over [enumerate(doc, 1)] of [extract_text_spans], from page
    number [page_num] on, with the list [spans] collected so far. *)
Fixpoint pages_loop (pages : list RawPage) (page_num : Z) (spans : list SpanInfo)
  : Eff Log (list SpanInfo) :=
  match pages with
  | [] => ret spans
  | page :: rest =>
      spans' <- try_except
                  (page_spans <- _extract_page_spans page page_num ;;
                   ret ((spans ++ page_spans)%list))
                  (fun e =>
                     logger_warning ("Error processing page " ++ str_int page_num
                                     ++ ": " ++ exn_msg e) ;;;
                     ret spans) ;;
      pages_loop rest (page_num + 1) spans'
  end.

(** [fitz.open] is the document library: it is given as a function from the
    path to the pages of the document, or to the exception it raises. *)
Definition DocumentSource : Type := string -> result (list RawPage).

Definition extract_text_spans (fitz_open : DocumentSource)
    (self : PDFTextExtractor) (pdf_path : string) : Eff Log (list SpanInfo) :=
  try_except
    (doc <- lift (fitz_open pdf_path) ;;
     spans <- pages_loop doc 1 [] ;;
     ret (_filter_spans self spans))
    (fun e =>
       match exn_cls e with
       | FileNotFoundError =>
           raise (Exn FileNotFoundError ("PDF file not found: " ++ pdf_path))
       | _ =>
           raise (Exn RuntimeError ("Failed to extract text from " ++ pdf_path
                                    ++ ": " ++ exn_msg e))
       end).

(** The module-level function with custom settings. *)
Definition extract_text_spans_enhanced (fitz_open : DocumentSource)
    (pdf_path : string) (min_font_size max_font_size : num)
  : Eff Log (list SpanInfo) :=
  let extractor := {| min_font_size := min_font_size;
                      max_font_size := max_font_size |} in
  extract_text_spans fitz_open extractor pdf_path.

(** * Vocabulary of the properties

    What the statements below speak about: the readings of the specification's
    words, the order in which a page is walked, the contribution of a page to
    a document, and the sample data of the examples. *)

(** ** Hexadecimal digits *)

Definition is_lower_hex (c : ascii) : bool :=
  between 48 57 (code c) || between 97 102 (code c).

Definition hex_digit_value (c : ascii) : Z :=
  if between 48 57 (code c) then code c - 48 else code c - 87.

(** The number a string of hexadecimal digits denotes, continuing from [v]. *)
Fixpoint hex_value_from (v : Z) (s : string) : Z :=
  match s with
  | EmptyString => v
  | String c s' => hex_value_from (v * 16 + hex_digit_value c) s'
  end.

Definition hex_value (s : string) : Z := hex_value_from 0 s.

(** The specification's words: [s] is "#" followed by exactly six lower-case
    hexadecimal digits that encode [n]. *)
Definition six_hex_digits_of (n : Z) (s : string) : Prop :=
  exists digits,
    s = "#" ++ digits
    /\ String.length digits = 6%nat
    /\ all_chars is_lower_hex digits = true
    /\ hex_value digits = n.

(** ** The tests of the filter, in the specification's words *)

(** The fraction of alphanumeric characters of a text. *)
Definition alnum_fraction (text : string) : Q :=
  inject_Z (count_chars char_isalnum text) / inject_Z (len text).

Definition size_in_range (self : PDFTextExtractor) (r : SpanInfo) : Prop :=
  num_le (min_font_size self) (size r) = true
  /\ num_le (size r) (max_font_size self) = true.

Definition mostly_special (t : string) : Prop :=
  3 <= len t /\ (alnum_fraction t < 3 # 10)%Q.

(** [x2 > x1], [y2 > y1] and the four coordinates in [[0, 10000]]. *)
Definition bbox_sane (b : num * num * num * num) : Prop :=
  let '(x1, y1, x2, y2) := b in
  num_lt x1 x2 = true /\ num_lt y1 y2 = true
  /\ Forall (fun coord => num_le (Fin 0) coord = true
                          /\ num_le coord (Fin 10000) = true) [x1; y1; x2; y2].

(** No coordinate of the box is NaN. *)
Definition no_nan (b : num * num * num * num) : Prop :=
  Forall (fun coord => is_nan coord = false) (bbox_coords b).

(** The box as the code tests it: none of the comparisons that reject it
    holds. *)
Definition box_not_rejected (b : num * num * num * num) : Prop :=
  let '(x1, y1, x2, y2) := b in
  num_le x2 x1 = false /\ num_le y2 y1 = false
  /\ Forall (fun coord => num_lt coord (Fin 0) = false
                          /\ num_lt (Fin 10000) coord = false) [x1; y1; x2; y2].

(** A record passes when the text as the record holds it has two
    characters or more. *)
Definition passes (self : PDFTextExtractor) (r : SpanInfo) : Prop :=
  size_in_range self r /\ 2 <= len (text r)
  /\ ~ mostly_special (text r) /\ bbox_sane (bbox r).

(** The same with the length of the trimmed text, as the specification
    words the test. *)
Definition passes_trimmed (self : PDFTextExtractor) (r : SpanInfo) : Prop :=
  size_in_range self r /\ 2 <= len (strip (text r))
  /\ ~ mostly_special (text r) /\ bbox_sane (bbox r).

(** The four tests as the code makes them. *)
Definition accepted (self : PDFTextExtractor) (r : SpanInfo) : Prop :=
  size_in_range self r /\ 2 <= len (text r)
  /\ ~ mostly_special (text r) /\ box_not_rejected (bbox r).

(** The decision the loop of [_filter_spans] takes for one record. *)
Definition keeps (self : PDFTextExtractor) (r : SpanInfo) : bool :=
  match filter_step self [] r with
  | [] => false
  | _ => true
  end.

(** [sub] is [l] with some elements left out, the others in their order. *)
Inductive subseq {A : Type} : list A -> list A -> Prop :=
| subseq_nil : subseq [] []
| subseq_skip x sub l : subseq sub l -> subseq sub (x :: l)
| subseq_keep x sub l : subseq sub l -> subseq (x :: sub) (x :: l).

(** ** The order of the page walk and the contribution of a page *)

(** What the walk of a page meets, in block, line and run order: a run, or
    a fault of the structure itself. *)
Inductive step : Type :=
| Run (span : RawSpan)
| Fault (e : exn).

(** A line without its runs is a [KeyError] at that point. *)
Definition line_steps (line : RawLine) : list step :=
  match l_spans line with
  | Some spans => map Run spans
  | None => [Fault (Exn KeyError "'spans'")]
  end.

(** A block without lines is passed over. *)
Definition block_steps (block : RawBlock) : list step :=
  match b_lines block with
  | Some lines => flat_map line_steps lines
  | None => []
  end.

(** A page whose dictionary cannot be read is a fault at once. *)
Definition page_steps (page : RawPage) : list step :=
  match p_blocks page with
  | Ok blocks => flat_map block_steps blocks
  | Err e => [Fault e]
  end.

(** What the walk does at one step. *)
Definition do_step (page_num : Z) (st : step) : Eff (list SpanInfo) unit :=
  match st with
  | Run span => walk_span page_num span
  | Fault e => raise e
  end.

(** The records of a list of runs, none of which raises. *)
Definition records_of (page_num : Z) (runs : list RawSpan) : list SpanInfo :=
  flat_map (fun span =>
              match build_span span page_num with
              | Ok (Some r) => [r]
              | _ => []
              end) runs.

(** The text of the page-level warning. *)
Definition page_warning (page_num : Z) (e : exn) : string :=
  "Error extracting spans from page " ++ str_int page_num ++ ": " ++ exn_msg e.

(** The contribution of one page: the list at the end of its walk, and the
    warning when the walk raised. *)
Definition page_records (page : RawPage) (page_num : Z) : list SpanInfo :=
  snd (walk_page page page_num []).

Definition page_warnings (page : RawPage) (page_num : Z) : Log :=
  match fst (walk_page page page_num []) with
  | Ok _ => []
  | Err e => [page_warning page_num e]
  end.

Fixpoint doc_records (pages : list RawPage) (page_num : Z) : list SpanInfo :=
  match pages with
  | [] => []
  | page :: rest => (page_records page page_num ++ doc_records rest (page_num + 1))%list
  end.

Fixpoint doc_warnings (pages : list RawPage) (page_num : Z) : Log :=
  match pages with
  | [] => []
  | page :: rest => (page_warnings page page_num ++ doc_warnings rest (page_num + 1))%list
  end.

(** ** Sample data *)

(** A run with a font name and a flag mask. *)
Definition font_only (f : string) (g : Z) : RawSpan :=
  {| s_text := None; s_bbox := None; s_size := None;
     s_font := Some (Str f); s_flags := Some (Int g); s_color := None |}.

(** A run with a colour. *)
Definition color_only (c : obj) : RawSpan :=
  {| s_text := None; s_bbox := None; s_size := None;
     s_font := None; s_flags := None; s_color := Some c |}.

(** The box of four finite coordinates. *)
Definition box (b : Q * Q * Q * Q) : num * num * num * num :=
  let '(x1, y1, x2, y2) := b in (Fin x1, Fin y1, Fin x2, Fin y2).

(** A record with the given text, size and box. *)
Definition sample_span (t : string) (sz : Q) (b : Q * Q * Q * Q) : SpanInfo :=
  {| text := t; bbox := box b; size := Fin sz; page := 1; font := Str "Helvetica";
     is_bold := false; is_italic := false; color := "black" |}.

(** A well-formed bold run with the given text and size, the record it
    builds on page [p], and a page of one block and one line. *)
Definition run (t : string) (sz : Q) : RawSpan :=
  {| s_text := Some t; s_bbox := Some [Fin 10; Fin 10; Fin 100; Fin 25];
     s_size := Some (Fin sz); s_font := Some (Str "Helvetica");
     s_flags := Some (Int 16); s_color := Some (Int 0) |}.

Definition record (t : string) (sz : Q) (p : Z) : SpanInfo :=
  {| text := t; bbox := box (10, 10, 100, 25)%Q; size := Fin sz; page := p;
     font := Str "Helvetica"; is_bold := true; is_italic := false;
     color := "black" |}.

(** The same run and record with the given size, finite or not, and the
    given left edge of the box. *)
Definition run_at (t : string) (sz x1 : num) : RawSpan :=
  {| s_text := Some t; s_bbox := Some [x1; Fin 10; Fin 100; Fin 25];
     s_size := Some sz; s_font := Some (Str "Helvetica");
     s_flags := Some (Int 16); s_color := Some (Int 0) |}.

Definition record_at (t : string) (sz x1 : num) (p : Z) : SpanInfo :=
  {| text := t; bbox := (x1, Fin 10, Fin 100, Fin 25); size := sz; page := p;
     font := Str "Helvetica"; is_bold := true; is_italic := false;
     color := "black" |}.

Definition page_of (runs : list RawSpan) : RawPage :=
  {| p_blocks := Ok [ {| b_lines := Some [ {| l_spans := Some runs |} ] |} ] |}.

(** Page 2 of three has a line without its runs between two good lines. *)
Definition torn_page : RawPage :=
  {| p_blocks := Ok [ {| b_lines := Some [ {| l_spans := Some [run "Alpha" 12] |};
                                            {| l_spans := None |};
                                            {| l_spans := Some [run "Beta" 12] |} ] |} ] |}.

(** A document of three pages whatever the path. *)
Definition three_pages : DocumentSource :=
  fun _ => Ok [page_of [run "Introduction" 14]; torn_page; page_of [run "Summary" 12]].

(** A page with one run whose box starts at NaN, whatever the path. *)
Definition nan_box_document : DocumentSource :=
  fun _ => Ok [page_of [run_at "Title" (Fin 12) NaN]].

(** The document library asked for a path that does not exist. *)
Definition missing_file : DocumentSource :=
  fun pdf_path => Err (Exn FitzFileNotFoundError ("no such file: '" ++ pdf_path ++ "'")).

(** ** Statements of the specification that the code does not meet *)


(** C2 as the specification states it: every non-zero integer is rendered
    from its low 24 bits. *)
Definition decodes_low_24_bits : Prop :=
  forall c : Z, c <> 0 ->
    exists s, _parse_color (color_only (Int c)) = Ok s
              /\ six_hex_digits_of (Z.land c 0xFFFFFF) s.

(** C3 as the specification states it, for records whose text is trimmed
    as the data model has it: the filter keeps exactly the records that pass
    the four tests. *)
Definition filter_keeps_exactly_passing : Prop :=
  forall (self : PDFTextExtractor) (spans : list SpanInfo) (r : SpanInfo),
    (forall x, In x spans -> strip (text x) = text x) ->
    (In r (_filter_spans self spans) <-> In r spans /\ passes_trimmed self r).

(** C6 as the specification states it: the constructor succeeds exactly
    when the page is at least 1, the size is above 0 and the box has four
    coordinates. *)
Definition constructs_iff_valid : Prop :=
  forall (t : string) (b : list num) (sz : num) (p : Z) (f : obj)
         (bold italic : bool) (c : string),
    (exists r, SpanInfo_init t b sz p f bold italic c = Ok r)
    <-> (1 <= p /\ num_lt (Fin 0) sz = true /\ List.length b = 4%nat).

(** C1 as the specification states it: on a page walked without fault of
    structure, where the only exceptions raised for runs are the
    [ValueError]s of the record constructor, every run whose record can be
    built yields it, whatever happens to the other runs. *)
Definition failing_run_only_skips_itself : Prop :=
  forall (page : RawPage) (page_num : Z) (runs : list RawSpan) (log : Log)
         (span : RawSpan) (r : SpanInfo),
    page_steps page = map Run runs ->
    (forall other e, In other runs -> build_span other page_num = Err e ->
                     exn_cls e = ValueError) ->
    In span runs ->
    build_span span page_num = Ok (Some r) ->
    exists spans, fst (_extract_page_spans page page_num log) = Ok spans
                  /\ In r spans.

(** ** The module-level entry point and the per-page view of a document *)

(** The module-level [extract_text_spans]: an extractor with the default
    arguments of [__init__]. *)
Definition extract_text_spans_default (fitz_open : DocumentSource)
    (pdf_path : string) : Eff Log (list SpanInfo) :=
  let extractor := default_extractor in
  extract_text_spans fitz_open extractor pdf_path.

(** ["lines" in block] *)
Definition has_lines (block : RawBlock) : bool :=
  match b_lines block with
  | Some _ => true
  | None => false
  end.

(** The records of each page filtered on their own, page after page. *)
Fixpoint doc_filtered (self : PDFTextExtractor) (pages : list RawPage)
    (page_num : Z) : list SpanInfo :=
  match pages with
  | [] => []
  | page :: rest =>
      (_filter_spans self (page_records page page_num)
       ++ doc_filtered self rest (page_num + 1))%list
  end.

(** The flags are an integer and the font name is a string, or is not
    looked at because both style bits are set. *)
Definition font_usable (span : RawSpan) : bool :=
  match dict_get (s_flags span) (Int 0) with
  | Int g =>
      match dict_get (s_font span) (Str "") with
      | Str _ => true
      | _ => truthy (Z.land g 16) && truthy (Z.land g 2)
      end
  | _ => false
  end.

(** The step raises [e]: a run whose record cannot be built, or a fault of
    the structure. *)
Definition step_raises (page_num : Z) (st : step) (e : exn) : Prop :=
  match st with
  | Run span => build_span span page_num = Err e
  | Fault e' => e' = e
  end.

(** The order of records by page number. *)
Definition page_le (a b : SpanInfo) : Prop := page a <= page b.

(** What every record built on page [page_num] satisfies. *)
Definition built_on (page_num : Z) (r : SpanInfo) : Prop :=
  page r = page_num /\ 1 <= page_num /\ strip (text r) = text r
  /\ text r <> "" /\ num_le (size r) (Fin 0) = false.

(** * Properties *)

(** ** Comparison and string lemmas *)

Lemma Qlt_bool_iff (a b : Q) : Qlt_bool a b = true <-> (a < b)%Q.
Proof.
  unfold Qlt_bool. rewrite negb_true_iff. split.
  - intros H. apply Qnot_le_lt. intros Hle.
    apply Qle_bool_iff in Hle. congruence.
  - intros H. destruct (Qle_bool b a) eqn:E; [|reflexivity].
    apply Qle_bool_iff in E. apply Qlt_not_le in H. contradiction.
Qed.


(** Comparisons of numbers: a total order away from NaN. *)

Lemma num_le_true (a b : num) :
  num_le a b = true -> is_nan a = false /\ is_nan b = false.
Proof. destruct a, b; simpl; intros H; try discriminate H; now split. Qed.

Lemma num_lt_true (a b : num) :
  num_lt a b = true -> is_nan a = false /\ is_nan b = false.
Proof. destruct a, b; simpl; intros H; try discriminate H; now split. Qed.

Lemma num_le_trans (a b c : num) :
  num_le a b = true -> num_le b c = true -> num_le a c = true.
Proof.
  destruct a as [x| | |], b as [y| | |], c as [z| | |]; simpl;
    intros H1 H2; try discriminate; try reflexivity.
  apply Qle_bool_iff. apply Qle_bool_iff in H1, H2. eapply Qle_trans; eassumption.
Qed.


Lemma num_lt_not_le (a b : num) : num_lt a b = true -> num_le b a = false.
Proof.
  destruct a as [x| | |], b as [y| | |]; simpl; intros H;
    try discriminate; try reflexivity.
  now apply negb_true_iff in H.
Qed.

(** Away from NaN, [not (b <= a)] is [a < b]. *)
Lemma num_not_le_lt (a b : num) :
  is_nan a = false -> is_nan b = false ->
  (num_le b a = false <-> num_lt a b = true).
Proof.
  destruct a as [x| | |], b as [y| | |]; simpl; intros Ha Hb;
    try discriminate; try (split; (reflexivity || discriminate)).
  now rewrite negb_true_iff.
Qed.

Lemma num_not_lt_le (a b : num) :
  is_nan a = false -> is_nan b = false ->
  (num_lt b a = false <-> num_le a b = true).
Proof.
  destruct a as [x| | |], b as [y| | |]; simpl; intros Ha Hb;
    try discriminate; try (split; (reflexivity || discriminate)).
  now rewrite negb_false_iff.
Qed.

Lemma prefix_spec (sub s : string) :
  String.prefix sub s = true <-> exists post, s = sub ++ post.
Proof.
  revert s. induction sub as [|c sub IH]; intros s.
  - split; [intros _; now exists s | intros _; destruct s; reflexivity].
  - destruct s as [|d s]; simpl.
    + split; [discriminate | intros [post H]; discriminate].
    + destruct (Ascii.ascii_dec c d) as [->|Hcd].
      * rewrite IH. split; intros [post H]; exists post.
        -- now rewrite H.
        -- now injection H.
      * split; [discriminate | intros [post H]; injection H; congruence].
Qed.

(** [contains] is the substring test. *)
Lemma contains_spec (sub s : string) :
  contains sub s = true <-> exists pre post, s = pre ++ sub ++ post.
Proof.
  induction s as [|c s IH].
  - change (contains sub "") with (String.prefix sub "" || false).
    rewrite orb_false_r, prefix_spec. split.
    + intros [post H]. now exists "", post.
    + intros [pre [post H]]. destruct pre; simpl in H; [now exists post | discriminate].
  - change (contains sub (String c s))
      with (String.prefix sub (String c s) || contains sub s).
    rewrite orb_true_iff, IH, prefix_spec. split.
    + intros [[post H] | [pre [post H]]].
      * now exists "", post.
      * exists (String c pre), post. simpl. now rewrite H.
    + intros [pre [post H]]. destruct pre as [|d pre]; simpl in H.
      * left. now exists post.
      * right. exists pre, post. now injection H.
Qed.

(** [flags & 2^k] is non-zero exactly when bit [k] of [flags] is set, for
    negative flags (two's complement) as well. *)
Lemma truthy_land_pow2 (flags k : Z) :
  0 <= k -> truthy (Z.land flags (2 ^ k)) = Z.testbit flags k.
Proof.
  intros Hk. unfold truthy.
  destruct (Z.testbit flags k) eqn:Hb.
  - apply negb_true_iff, Z.eqb_neq. intros H0.
    assert (Hbit : Z.testbit (Z.land flags (2 ^ k)) k = true).
    { rewrite Z.land_spec, Hb, Z.pow2_bits_true by assumption. reflexivity. }
    rewrite H0, Z.bits_0 in Hbit. discriminate.
  - apply negb_false_iff, Z.eqb_eq. apply Z.bits_inj'. intros n Hn.
    rewrite Z.land_spec, Z.bits_0.
    destruct (Z.eq_dec n k) as [->|Hne].
    + now rewrite Hb.
    + rewrite (Z.pow2_bits_false k n) by congruence. apply andb_false_r.
Qed.

(** ** The record constructor *)

(** A record that was constructed holds the arguments of the constructor. *)
Lemma SpanInfo_init_fields (t : string) (b : list num) (sz : num) (p : Z)
    (f : obj) (bold italic : bool) (c : string) (r : SpanInfo) :
  SpanInfo_init t b sz p f bold italic c = Ok r ->
  text r = t /\ bbox_coords (bbox r) = b /\ size r = sz /\ page r = p
  /\ font r = f /\ is_bold r = bold /\ is_italic r = italic /\ color r = c.
Proof.
  unfold SpanInfo_init.
  destruct (p <? 1); [discriminate|].
  destruct (num_le sz (Fin 0)); [discriminate|].
  destruct b as [|x1 [|y1 [|x2 [|y2 [|z b]]]]]; try discriminate.
  intros H. injection H as <-. repeat split.
Qed.

(** The checks of [__post_init__], one by one. *)
Lemma SpanInfo_init_checks (t : string) (b : list num) (sz : num) (p : Z)
    (f : obj) (bold italic : bool) (c : string) :
  (exists r, SpanInfo_init t b sz p f bold italic c = Ok r)
  <-> (1 <= p /\ num_le sz (Fin 0) = false /\ List.length b = 4%nat).
Proof.
  unfold SpanInfo_init.
  destruct (Z.ltb_spec p 1) as [Hp|Hp].
  { split; [intros [r Hr]; discriminate | intros (H1 & _); lia]. }
  destruct (num_le sz (Fin 0)) eqn:Hs.
  { split; [intros [r Hr]; discriminate | intros (_ & H2 & _); discriminate]. }
  destruct b as [|x1 [|y1 [|x2 [|y2 [|z b]]]]];
    try (split; [intros [r Hr]; discriminate | intros (_ & _ & H3); discriminate]).
  split; [intros _; repeat split; assumption | intros _; eexists; reflexivity].
Qed.

(** C6: the constructor rejects a size that is [<= 0] and so lets a NaN size
    through: with page 1 and a box of four coordinates it builds a record
    whose size is NaN, which is not above 0, so that construction does not
    succeed only for sizes above 0. *)
Theorem SpanInfo_init_accepts_nan_size :
  SpanInfo_init "Title" [Fin 0; Fin 0; Fin 100; Fin 20] NaN 1
    (Str "Helvetica") false false "black"
  = Ok {| text := "Title"; bbox := (Fin 0, Fin 0, Fin 100, Fin 20); size := NaN;
          page := 1; font := Str "Helvetica"; is_bold := false;
          is_italic := false; color := "black" |}
  /\ num_lt (Fin 0) NaN = false
  /\ ~ constructs_iff_valid.
Proof.
  split; [reflexivity|]. split; [reflexivity|].
  intros H.
  destruct (H "Title" [Fin 0; Fin 0; Fin 100; Fin 20] NaN 1
              (Str "Helvetica") false false "black") as [Hsucc _].
  destruct Hsucc as (_ & Hpos & _); [eexists; reflexivity|].
  discriminate Hpos.
Qed.

(** X25: constructing a [SpanInfo] succeeds if and only if [page >= 1], the
    size is not [<= 0] and the box has exactly four coordinates; for a size
    other than NaN, not [<= 0] is [> 0].  When a check fails the constructor
    raises a [ValueError]; when it succeeds the record holds the arguments as
    they were given. *)
Theorem SpanInfo_init_validates :
  forall (t : string) (b : list num) (sz : num) (p : Z) (f : obj)
         (bold italic : bool) (c : string),
    ((exists r, SpanInfo_init t b sz p f bold italic c = Ok r)
       <-> (1 <= p /\ num_le sz (Fin 0) = false /\ List.length b = 4%nat))
    /\ (is_nan sz = false ->
        ((exists r, SpanInfo_init t b sz p f bold italic c = Ok r)
           <-> (1 <= p /\ num_lt (Fin 0) sz = true /\ List.length b = 4%nat)))
    /\ (forall e, SpanInfo_init t b sz p f bold italic c = Err e ->
                  exn_cls e = ValueError
                  /\ ~ (1 <= p /\ num_le sz (Fin 0) = false
                        /\ List.length b = 4%nat))
    /\ (forall r, SpanInfo_init t b sz p f bold italic c = Ok r ->
                  text r = t /\ bbox_coords (bbox r) = b /\ size r = sz
                  /\ page r = p /\ font r = f /\ is_bold r = bold
                  /\ is_italic r = italic /\ color r = c).
Proof.
  intros t b sz p f bold italic c.
  pose proof (SpanInfo_init_checks t b sz p f bold italic c) as Hchecks.
  split; [exact Hchecks|]. split; [|split].
  - intros Hnan. rewrite Hchecks.
    rewrite (num_not_le_lt (Fin 0) sz eq_refl Hnan). reflexivity.
  - intros e He. split.
    + unfold SpanInfo_init in He.
      destruct (p <? 1); [now injection He as <-|].
      destruct (num_le sz (Fin 0)); [now injection He as <-|].
      destruct b as [|x1 [|y1 [|x2 [|y2 [|z b]]]]];
        try discriminate He; now injection He as <-.
    + intros Hok. apply Hchecks in Hok. destruct Hok as [r Hr]. congruence.
  - intros r. apply SpanInfo_init_fields.
Qed.

(** ** Style classification *)

(** For a font name that is a string and flags that are an integer, given
    or defaulted, nothing raises and both tests read as written. *)
Lemma parse_font_info_typed (span : RawSpan) (f : string) (g : Z) :
  dict_get (s_font span) (Str "") = Str f ->
  dict_get (s_flags span) (Int 0) = Int g ->
  _parse_font_info span
  = Ok {| font_name := Str f;
          fi_is_bold := truthy (Z.land g 16) || contains "bold" (lower f);
          fi_is_italic := truthy (Z.land g 2) || contains "italic" (lower f);
          fi_flags := Int g |}.
Proof.
  intros Hf Hg. unfold _parse_font_info. rewrite Hf, Hg.
  cbn [flag_set name_contains].
  destruct (truthy (Z.land g 16)); destruct (truthy (Z.land g 2)); reflexivity.
Qed.

(** C8: for every font name [f] and flag mask [g] the classification
    returns without raising; [is_bold] holds exactly when the bit of value 16
    (bit 4) is set in [g] or the lower-cased name contains "bold", and
    [is_italic] exactly when the bit of value 2 (bit 1) is set or the
    lower-cased name contains "italic"; the name and the flags are returned
    unchanged. *)
Theorem parse_font_info_style :
  forall (f : string) (g : Z) (t : option string) (b : option (list num))
         (sz : option num) (c : option obj),
    exists info,
      _parse_font_info
        {| s_text := t; s_bbox := b; s_size := sz;
           s_font := Some (Str f); s_flags := Some (Int g); s_color := c |}
      = Ok info
      /\ (fi_is_bold info = true <->
           Z.testbit g 4 = true \/ exists pre post, lower f = pre ++ "bold" ++ post)
      /\ (fi_is_italic info = true <->
           Z.testbit g 1 = true \/ exists pre post, lower f = pre ++ "italic" ++ post)
      /\ font_name info = Str f
      /\ fi_flags info = Int g.
Proof.
  intros f g t b sz c. eexists. split.
  - apply (parse_font_info_typed _ f g); reflexivity.
  - cbn [fi_is_bold fi_is_italic font_name fi_flags].
    change 16 with (2 ^ 4). change 2 with (2 ^ 1) at 2.
    rewrite !truthy_land_pow2 by lia.
    rewrite !orb_true_iff, !contains_spec. repeat split; tauto.
Qed.

Example parse_font_info_flags_16 :
  exists info, _parse_font_info (font_only "Helvetica" 16) = Ok info
               /\ fi_is_bold info = true /\ fi_is_italic info = false.
Proof. eexists. split; [reflexivity|]. split; reflexivity. Qed.

Example parse_font_info_flags_2 :
  exists info, _parse_font_info (font_only "Helvetica" 2) = Ok info
               /\ fi_is_bold info = false /\ fi_is_italic info = true.
Proof. eexists. split; [reflexivity|]. split; reflexivity. Qed.

Example parse_font_info_flags_18 :
  exists info, _parse_font_info (font_only "Helvetica" 18) = Ok info
               /\ fi_is_bold info = true /\ fi_is_italic info = true.
Proof. eexists. split; [reflexivity|]. split; reflexivity. Qed.

Example parse_font_info_name_only :
  exists info, _parse_font_info (font_only "Arial-BoldItalic" 0) = Ok info
               /\ fi_is_bold info = true /\ fi_is_italic info = true.
Proof. eexists. split; [reflexivity|]. split; reflexivity. Qed.

(** A negative mask is read in two's complement, as Python does. *)
Example parse_font_info_negative_flags :
  (exists info, _parse_font_info (font_only "" (-1)) = Ok info
                /\ fi_is_bold info = true)
  /\ (exists info, _parse_font_info (font_only "" (-17)) = Ok info
                   /\ fi_is_bold info = false).
Proof. split; eexists; (split; [reflexivity|]); reflexivity. Qed.

(** A font or flags entry of another type raises where it is first used;
    with both bits set in the flags the font name is never looked at. *)
Example parse_font_info_wrong_types :
  _parse_font_info {| s_text := None; s_bbox := None; s_size := None;
                      s_font := Some NoneObj; s_flags := Some (Int 0);
                      s_color := None |}
  = Err (Exn AttributeError "'NoneType' object has no attribute 'lower'")
  /\ _parse_font_info {| s_text := None; s_bbox := None; s_size := None;
                         s_font := Some (Str "Arial"); s_flags := Some NoneObj;
                         s_color := None |}
     = Err (Exn TypeError "unsupported operand type(s) for &: 'NoneType' and 'int'")
  /\ _parse_font_info {| s_text := None; s_bbox := None; s_size := None;
                         s_font := Some NoneObj; s_flags := Some (Int 18);
                         s_color := None |}
     = Ok {| font_name := NoneObj; fi_is_bold := true; fi_is_italic := true;
             fi_flags := Int 18 |}.
Proof. repeat split. Qed.

(** ** The special-character test *)

(** C7: a text shorter than three characters is never "mostly special"; a
    text of three characters or more is so exactly when its fraction of
    alphanumeric characters is below 3/10, so that a fraction of exactly 3/10
    passes.  "!!" passes, "a!!!!!!!" (fraction 1/8) is rejected. *)
Theorem is_mostly_special_chars_ratio :
  (forall text, len text < 3 -> _is_mostly_special_chars text = false)
  /\ (forall text, 3 <= len text ->
        (_is_mostly_special_chars text = true <-> (alnum_fraction text < 3 # 10)%Q))
  /\ (forall text, 3 <= len text -> (alnum_fraction text == 3 # 10)%Q ->
        _is_mostly_special_chars text = false)
  /\ _is_mostly_special_chars "!!" = false
  /\ ((alnum_fraction "a!!!!!!!" == 1 # 8)%Q
      /\ _is_mostly_special_chars "a!!!!!!!" = true)
  /\ ((alnum_fraction "abc!!!!!!!" == 3 # 10)%Q
      /\ _is_mostly_special_chars "abc!!!!!!!" = false).
Proof.
  assert (Hlong : forall text, 3 <= len text ->
            _is_mostly_special_chars text
            = Qlt_bool (alnum_fraction text) (3 # 10)).
  { intros text H. unfold _is_mostly_special_chars.
    destruct (Z.ltb_spec (len text) 3); [lia | reflexivity]. }
  repeat split.
  - intros text H. unfold _is_mostly_special_chars.
    destruct (Z.ltb_spec (len text) 3); [reflexivity | lia].
  - rewrite (Hlong _ H). apply Qlt_bool_iff.
  - rewrite (Hlong _ H). apply Qlt_bool_iff.
  - intros text H Heq. rewrite (Hlong _ H).
    destruct (Qlt_bool (alnum_fraction text) (3 # 10)) eqn:E; [|reflexivity].
    apply Qlt_bool_iff in E. rewrite Heq in E.
    exfalso. exact (Qlt_irrefl _ E).
Qed.

(** ** Colour decoding *)

Lemma hex_digit_ok (d : Z) :
  0 <= d < 16 ->
  is_lower_hex (hex_digit d) = true /\ hex_digit_value (hex_digit d) = d.
Proof.
  intros H.
  assert (Hd : d = 0 \/ d = 1 \/ d = 2 \/ d = 3 \/ d = 4 \/ d = 5 \/ d = 6 \/ d = 7
               \/ d = 8 \/ d = 9 \/ d = 10 \/ d = 11 \/ d = 12 \/ d = 13 \/ d = 14
               \/ d = 15) by lia.
  repeat (destruct Hd as [-> | Hd]; [split; reflexivity|]).
  subst d. split; reflexivity.
Qed.

Lemma append_assoc (a b c : string) : (a ++ b) ++ c = a ++ (b ++ c).
Proof. induction a as [|x a IH]; simpl; [reflexivity | now rewrite IH]. Qed.

Lemma length_append (a b : string) :
  String.length (a ++ b) = (String.length a + String.length b)%nat.
Proof. induction a as [|x a IH]; simpl; [reflexivity | now rewrite IH]. Qed.

Lemma all_chars_append (p : ascii -> bool) (a b : string) :
  all_chars p (a ++ b) = all_chars p a && all_chars p b.
Proof.
  induction a as [|x a IH]; simpl; [reflexivity|].
  now rewrite IH, andb_assoc.
Qed.

Lemma hex_value_from_append (v : Z) (a b : string) :
  hex_value_from v (a ++ b) = hex_value_from (hex_value_from v a) b.
Proof. revert v. induction a as [|x a IH]; intros v; simpl; [reflexivity | apply IH]. Qed.

(** The accumulator only follows the digits. *)
Lemma hex_digits_acc (fuel : nat) (n : Z) (acc : string) :
  hex_digits fuel n acc = hex_digits fuel n "" ++ acc.
Proof.
  revert n acc. induction fuel as [|fuel IH]; intros n acc; simpl; [reflexivity|].
  destruct (n <=? 0); [reflexivity|].
  rewrite IH. rewrite (IH _ (String _ "")). now rewrite append_assoc.
Qed.

Lemma hex_digits_step (fuel : nat) (n : Z) :
  0 < n ->
  hex_digits (S fuel) n ""
  = hex_digits fuel (n / 16) "" ++ String (hex_digit (n mod 16)) "".
Proof.
  intros Hn. simpl. destruct (Z.leb_spec n 0); [lia|]. apply hex_digits_acc.
Qed.

(** With enough fuel the digits denote [n]; they are lower-case hexadecimal
    digits, and there are at most [k] of them when [n < 16^k]. *)
Lemma hex_digits_ok (fuel : nat) :
  forall n, 0 <= n < 16 ^ Z.of_nat fuel ->
    hex_value (hex_digits fuel n "") = n
    /\ all_chars is_lower_hex (hex_digits fuel n "") = true
    /\ forall k, n < 16 ^ Z.of_nat k ->
                 (String.length (hex_digits fuel n "") <= k)%nat.
Proof.
  induction fuel as [|fuel IH]; intros n Hn.
  - simpl in *. assert (n = 0) by lia. subst n.
    repeat split. intros k _. lia.
  - destruct (Z.eq_dec n 0) as [->|Hnz].
    { simpl. repeat split. intros k _. lia. }
    rewrite hex_digits_step by lia.
    assert (Hq : 0 <= n / 16 < 16 ^ Z.of_nat fuel).
    { split; [apply Z.div_pos; lia|].
      apply Z.div_lt_upper_bound; [lia|].
      rewrite Nat2Z.inj_succ, Z.pow_succ_r in Hn by lia. lia. }
    destruct (IH _ Hq) as (Hv & Hc & Hl).
    assert (Hm : 0 <= n mod 16 < 16) by (apply Z.mod_pos_bound; lia).
    destruct (hex_digit_ok _ Hm) as [Hd1 Hd2].
    repeat split.
    + unfold hex_value in *. rewrite hex_value_from_append, Hv. simpl.
      rewrite Hd2. rewrite (Z.div_mod n 16) at 3 by lia. lia.
    + rewrite all_chars_append, Hc. simpl. now rewrite Hd1.
    + intros k Hk. rewrite length_append. simpl.
      destruct k as [|k].
      * simpl in Hk. lia.
      * assert (n / 16 < 16 ^ Z.of_nat k).
        { apply Z.div_lt_upper_bound; [lia|].
          rewrite Nat2Z.inj_succ, Z.pow_succ_r in Hk by lia. lia. }
        specialize (Hl k H). lia.
Qed.

Lemma hex_ok (n : Z) :
  0 < n ->
  hex_value (hex n) = n
  /\ all_chars is_lower_hex (hex n) = true
  /\ forall k, n < 16 ^ Z.of_nat k -> (String.length (hex n) <= k)%nat.
Proof.
  intros Hn. unfold hex. destruct (Z.eqb_spec n 0); [lia|].
  apply hex_digits_ok. split; [lia|].
  destruct (Z.log2_spec n Hn) as [_ Hlt].
  eapply Z.lt_le_trans; [exact Hlt|].
  rewrite Nat2Z.inj_succ, Z2Nat.id by apply Z.log2_nonneg.
  change 16 with (2 ^ 4). rewrite <- Z.pow_mul_r by (pose proof (Z.log2_nonneg n); lia).
  apply Z.pow_le_mono_r; pose proof (Z.log2_nonneg n); lia.
Qed.

Lemma zeros_ok (k : nat) :
  String.length (zeros k) = k
  /\ all_chars is_lower_hex (zeros k) = true
  /\ forall s, hex_value_from 0 (zeros k ++ s) = hex_value_from 0 s.
Proof.
  induction k as [|k (Hl & Hc & Hv)]; simpl.
  - repeat split.
  - repeat split.
    + now rewrite Hl.
    + exact Hc.
    + exact Hv.
Qed.

(** A positive integer is written with its own hexadecimal digits, padded
    with zeros to six; there are exactly six when it is below [2^24]. *)
Lemma format_06x_int_pos (c : Z) :
  0 < c ->
  (6 <= String.length (format_06x_int c))%nat
  /\ all_chars is_lower_hex (format_06x_int c) = true
  /\ hex_value (format_06x_int c) = c
  /\ (c < 2 ^ 24 -> String.length (format_06x_int c) = 6%nat).
Proof.
  intros Hc. unfold format_06x_int.
  destruct (Z.ltb_spec c 0); [lia|].
  destruct (hex_ok c Hc) as (Hv & Hh & Hl).
  specialize (Hl 6%nat). change (16 ^ Z.of_nat 6) with (2 ^ 24) in Hl.
  destruct (zeros_ok (6 - String.length (hex c))) as (Zl & Zh & Zv).
  unfold zfill. repeat split.
  - rewrite length_append, Zl. lia.
  - now rewrite all_chars_append, Zh, Hh.
  - unfold hex_value. rewrite Zv. exact Hv.
  - intros Hsmall. specialize (Hl Hsmall). rewrite length_append, Zl. lia.
Qed.

(** C2, with the range on which six digits suffice: decoding an integer
    never raises; 0 gives "black"; a positive [c] gives "#" and lower-case
    hexadecimal digits, six or more, that encode [c] itself, exactly six when
    [c < 2^24], where [c] is its own low 24 bits; a negative [c] gives "#-"
    and the digits of [-c] padded to five.  Nothing is masked to 24 bits. *)
Theorem parse_color_decodes :
  forall (c : Z) (t : option string) (b : option (list num)) (sz : option num)
         (f : option obj) (g : option obj),
    let span := {| s_text := t; s_bbox := b; s_size := sz; s_font := f;
                   s_flags := g; s_color := Some (Int c) |} in
    (exists s, _parse_color span = Ok s)
    /\ (c = 0 -> _parse_color span = Ok "black")
    /\ (0 < c ->
        exists digits,
          _parse_color span = Ok ("#" ++ digits)
          /\ (6 <= String.length digits)%nat
          /\ all_chars is_lower_hex digits = true
          /\ hex_value digits = c
          /\ (c < 2 ^ 24 ->
              six_hex_digits_of (Z.land c 0xFFFFFF) ("#" ++ digits)))
    /\ (c < 0 -> _parse_color span = Ok ("#-" ++ zfill 5 (hex (- c)))).
Proof.
  intros c t b sz f g. cbv zeta. unfold _parse_color.
  cbn [s_color dict_get eq_zero format_06x].
  destruct (Z.eqb_spec c 0) as [->|Hc].
  - split; [now exists "black"|]. split; [reflexivity|].
    split; intros H; lia.
  - split; [now exists ("#" ++ format_06x_int c)|].
    split; [intros H; contradiction|]. split.
    + intros Hpos. destruct (format_06x_int_pos c Hpos) as (Hl & Hh & Hv & Hs).
      exists (format_06x_int c). repeat split; try assumption.
      intros Hsmall. exists (format_06x_int c). repeat split; auto.
      rewrite Hv. change 16777215 with (Z.ones 24).
      rewrite Z.land_ones by lia. symmetry. apply Z.mod_small. lia.
    + intros Hneg. unfold format_06x_int.
      destruct (Z.ltb_spec c 0); [reflexivity | lia].
Qed.

(** C2, counterexample: above 24 bits and below zero the digits are not the
    low 24 bits: [0x1000000] gives seven digits, [-255] gives a sign. *)
Lemma parse_color_does_not_mask :
  _parse_color (color_only (Int 0x1000000)) = Ok "#1000000"
  /\ _parse_color (color_only (Int (-255))) = Ok "#-000ff"
  /\ ~ decodes_low_24_bits.
Proof.
  split; [reflexivity|]. split; [reflexivity|].
  intros H. destruct (H 0x1000000) as (s & Hs & digits & Hd & Hlen & _).
  { discriminate. }
  injection Hs as <-. injection Hd as <-. discriminate Hlen.
Qed.

Example parse_color_ff00a0 :
  _parse_color (color_only (Int 0xFF00A0)) = Ok "#ff00a0".
Proof. reflexivity. Qed.

(** A missing key reads as 0; a value that [format] refuses is caught. *)
Example parse_color_fallbacks :
  _parse_color (font_only "" 0) = Ok "black"
  /\ _parse_color (color_only (Str "red")) = Ok "black"
  /\ _parse_color (color_only NoneObj) = Ok "black".
Proof. repeat split. Qed.

(** ** The filter *)

Section Filter.

Variable self : PDFTextExtractor.

Lemma filter_step_keeps (filtered : list SpanInfo) (r : SpanInfo) :
  filter_step self filtered r
  = (filtered ++ if keeps self r then [r] else [])%list.
Proof.
  unfold keeps, filter_step.
  repeat match goal with
         | |- context [if ?b then _ else _] =>
             destruct b; simpl; try (now rewrite app_nil_r); try reflexivity
         end.
Qed.

Lemma fold_filter_step (spans filtered : list SpanInfo) :
  fold_left (filter_step self) spans filtered
  = (filtered ++ filter (keeps self) spans)%list.
Proof.
  revert filtered. induction spans as [|r spans IH]; intros filtered; simpl.
  - now rewrite app_nil_r.
  - rewrite IH, filter_step_keeps.
    destruct (keeps self r); simpl.
    + now rewrite <- app_assoc.
    + now rewrite app_nil_r.
Qed.

Lemma filter_spans_filter (spans : list SpanInfo) :
  _filter_spans self spans = filter (keeps self) spans.
Proof. unfold _filter_spans. now rewrite fold_filter_step. Qed.

Lemma is_mostly_special_chars_iff (t : string) :
  _is_mostly_special_chars t = true <-> mostly_special t.
Proof.
  unfold _is_mostly_special_chars, mostly_special.
  destruct (Z.ltb_spec (len t) 3) as [Hl|Hl].
  - split; [discriminate | intros [H _]; lia].
  - fold (alnum_fraction t). rewrite Qlt_bool_iff. tauto.
Qed.

Lemma existsb_false_Forall {A : Type} (f : A -> bool) (l : list A) :
  existsb f l = false <-> Forall (fun x => f x = false) l.
Proof.
  induction l as [|x l IH]; simpl.
  - split; [constructor | reflexivity].
  - rewrite orb_false_iff, IH. split.
    + intros [Hx Hl]. now constructor.
    + intros H. inversion H; subst. now split.
Qed.

(** The box test accepts exactly when none of its rejecting comparisons
    holds. *)
Lemma is_valid_bbox_not_rejected (b : num * num * num * num) :
  _is_valid_bbox b = true <-> box_not_rejected b.
Proof.
  destruct b as [[[x1 y1] x2] y2]. unfold _is_valid_bbox, box_not_rejected.
  destruct (num_le x2 x1); cbn [orb].
  { split; [discriminate | intros (H & _); discriminate]. }
  destruct (num_le y2 y1).
  { split; [discriminate | intros (_ & H & _); discriminate]. }
  unfold bbox_coords.
  match goal with
  | |- (if existsb ?f ?l then false else true) = true <-> _ =>
      destruct (existsb f l) eqn:E
  end.
  - split; [discriminate|]. intros (_ & _ & HF).
    apply not_true_iff_false in E; [contradiction|].
    apply existsb_false_Forall. eapply Forall_impl; [|exact HF].
    intros c [H1 H2]. cbn beta. now rewrite H1, H2.
  - split; [intros _|reflexivity]. split; [reflexivity|]. split; [reflexivity|].
    apply existsb_false_Forall in E. eapply Forall_impl; [|exact E].
    intros c H. cbn beta in H. now apply orb_false_iff in H.
Qed.

Lemma coord_in_range_not_rejected (c : num) :
  num_le (Fin 0) c = true /\ num_le c (Fin 10000) = true ->
  num_lt c (Fin 0) = false /\ num_lt (Fin 10000) c = false.
Proof.
  intros [H0 H1]. destruct (num_le_true _ _ H0) as [_ Hc]. split.
  - now apply (num_not_lt_le (Fin 0) c eq_refl Hc).
  - now apply (num_not_lt_le c (Fin 10000) Hc eq_refl).
Qed.

Lemma coord_not_rejected_in_range (c : num) :
  is_nan c = false ->
  num_lt c (Fin 0) = false /\ num_lt (Fin 10000) c = false ->
  num_le (Fin 0) c = true /\ num_le c (Fin 10000) = true.
Proof.
  intros Hc [H0 H1]. split.
  - now apply (num_not_lt_le (Fin 0) c eq_refl Hc).
  - now apply (num_not_lt_le c (Fin 10000) Hc eq_refl).
Qed.

(** A sane box is never rejected; a box that is not rejected is sane when
    none of its coordinates is NaN. *)
Lemma bbox_sane_not_rejected (b : num * num * num * num) :
  bbox_sane b -> box_not_rejected b.
Proof.
  destruct b as [[[x1 y1] x2] y2]. unfold bbox_sane, box_not_rejected.
  intros (Hx & Hy & HF). split; [now apply num_lt_not_le|].
  split; [now apply num_lt_not_le|].
  eapply Forall_impl; [|exact HF]. intros c. apply coord_in_range_not_rejected.
Qed.

Lemma box_not_rejected_sane (b : num * num * num * num) :
  no_nan b -> box_not_rejected b -> bbox_sane b.
Proof.
  destruct b as [[[x1 y1] x2] y2]. unfold no_nan, bbox_sane, box_not_rejected, bbox_coords.
  intros Hn (Hx & Hy & HF).
  assert (Hn' := Hn). rewrite Forall_forall in Hn'.
  assert (N1 : is_nan x1 = false) by (apply Hn'; simpl; auto).
  assert (N2 : is_nan y1 = false) by (apply Hn'; simpl; auto).
  assert (N3 : is_nan x2 = false) by (apply Hn'; simpl; auto).
  assert (N4 : is_nan y2 = false) by (apply Hn'; simpl; auto).
  split; [now apply (num_not_le_lt x1 x2 N1 N3)|].
  split; [now apply (num_not_le_lt y1 y2 N2 N4)|].
  rewrite Forall_forall in HF. apply Forall_forall. intros c Hc.
  apply coord_not_rejected_in_range; [now apply Hn' | now apply HF].
Qed.

(** The loop keeps a record exactly when the four tests, as the code makes
    them, let it through. *)
Lemma keeps_iff (r : SpanInfo) : keeps self r = true <-> accepted self r.
Proof.
  unfold keeps, filter_step, accepted, size_in_range.
  rewrite <- is_mostly_special_chars_iff, <- is_valid_bbox_not_rejected.
  destruct (num_le (min_font_size self) (size r)); cbn [andb negb].
  2:{ split; [discriminate | intros ((H & _) & _); discriminate]. }
  destruct (num_le (size r) (max_font_size self)); cbn [negb].
  2:{ split; [discriminate | intros ((_ & H) & _); discriminate]. }
  destruct (Z.ltb_spec (len (text r)) 2) as [Hl|Hl].
  { split; [discriminate | intros (_ & H & _); lia]. }
  destruct (_is_mostly_special_chars (text r)).
  { split; [discriminate | intros (_ & _ & H & _); now elim H]. }
  destruct (_is_valid_bbox (bbox r)); cbn [negb].
  - split; [intros _|reflexivity]. repeat split; try assumption. discriminate.
  - split; [discriminate | intros (_ & _ & _ & H); discriminate].
Qed.

(** A record that passes the tests in the specification's words is kept;
    a record that is kept passes them when its box holds no NaN. *)
Lemma passes_keeps (r : SpanInfo) : passes self r -> keeps self r = true.
Proof.
  intros (Hs & Hl & Hm & Hb). apply keeps_iff.
  repeat split; try assumption; try apply Hs.
  now apply bbox_sane_not_rejected.
Qed.

Lemma keeps_passes (r : SpanInfo) :
  no_nan (bbox r) -> keeps self r = true -> passes self r.
Proof.
  intros Hn Hk. apply keeps_iff in Hk. destruct Hk as (Hs & Hl & Hm & Hb).
  repeat split; try assumption; try apply Hs.
  now apply box_not_rejected_sane.
Qed.

End Filter.

Lemma filter_subseq {A : Type} (p : A -> bool) (l : list A) :
  subseq (filter p l) l.
Proof.
  induction l as [|x l IH]; simpl; [constructor|].
  destruct (p x); now constructor.
Qed.

Lemma filter_idempotent {A : Type} (p : A -> bool) (l : list A) :
  filter p (filter p l) = filter p l.
Proof.
  induction l as [|x l IH]; simpl; [reflexivity|].
  destruct (p x) eqn:E; simpl; [rewrite E, IH|]; auto.
Qed.

(** ** Trimming *)

Lemma lstrip_head (s : string) :
  lstrip s = "" \/ exists c t, lstrip s = String c t /\ char_isspace c = false.
Proof.
  induction s as [|c s IH]; simpl; [now left|].
  destruct (char_isspace c) eqn:E; [exact IH|].
  right. now exists c, s.
Qed.

Lemma rstrip_head (c : ascii) (t : string) :
  char_isspace c = false -> exists t', rstrip (String c t) = String c t'.
Proof.
  intros H. simpl. destruct (rstrip t); rewrite ?H; eexists; reflexivity.
Qed.

Lemma rstrip_idempotent (s : string) : rstrip (rstrip s) = rstrip s.
Proof.
  induction s as [|c s IH]; [reflexivity|].
  simpl. destruct (rstrip s) as [|d r] eqn:E.
  - destruct (char_isspace c) eqn:Hc; simpl; [reflexivity | now rewrite Hc].
  - change (rstrip (String c (String d r)))
      with (match rstrip (String d r) with
            | "" => if char_isspace c then "" else String c ""
            | r' => String c r'
            end).
    now rewrite IH.
Qed.

Lemma strip_idempotent (s : string) : strip (strip s) = strip s.
Proof.
  unfold strip. destruct (lstrip_head s) as [H | (c & t & H & Hc)]; rewrite H.
  - reflexivity.
  - destruct (rstrip_head c t Hc) as [t' Ht]. rewrite Ht.
    simpl lstrip. rewrite Hc. rewrite <- Ht. apply rstrip_idempotent.
Qed.

(** A record that the page walk builds holds trimmed, non-empty text and the
    number of its page. *)
Lemma build_span_record (span : RawSpan) (page_num : Z) (r : SpanInfo) :
  build_span span page_num = Ok (Some r) ->
  strip (text r) = text r /\ text r <> "" /\ page r = page_num.
Proof.
  unfold build_span. destruct (s_text span) as [raw|]; cbn [getitem]; [|discriminate].
  destruct (strip raw) as [|c t] eqn:Es; cbn [orb]; [discriminate|].
  destruct (isspace (String c t)); [discriminate|].
  destruct (_parse_font_info span); [|discriminate].
  destruct (_parse_color span); [|discriminate].
  destruct (getitem "bbox" (s_bbox span)); [|discriminate].
  destruct (getitem "size" (s_size span)); [|discriminate].
  match goal with |- context [SpanInfo_init ?a ?b ?c ?d ?e ?f ?g ?h] =>
    destruct (SpanInfo_init a b c d e f g h) as [r'|] eqn:Ei; [|discriminate]
  end.
  intros H. injection H as <-.
  destruct (SpanInfo_init_fields _ _ _ _ _ _ _ _ _ Ei) as (Ht & _ & _ & Hp & _).
  rewrite Ht, <- Es. repeat split.
  - apply strip_idempotent.
  - rewrite Es. discriminate.
  - exact Hp.
Qed.

(** ** What the filter returns *)

(** X26: for every sequence of records the filter returns, in their order,
    exactly the records that the four tests of the code let through; the
    result is a subsequence of the input.  A record that passes the tests in
    the specification's words is always kept, and for records whose box
    holds no NaN and whose text is trimmed the filter keeps exactly those
    that pass them: size within the closed interval, trimmed text of two
    characters or more, not mostly special characters, and a sane box. *)
Theorem filter_spans_keeps_passing :
  forall (self : PDFTextExtractor) (spans : list SpanInfo),
    _filter_spans self spans = filter (keeps self) spans
    /\ (forall r, keeps self r = true <-> accepted self r)
    /\ (forall r, In r (_filter_spans self spans) <-> In r spans /\ accepted self r)
    /\ subseq (_filter_spans self spans) spans
    /\ (forall r, In r spans -> passes self r -> In r (_filter_spans self spans))
    /\ (forall r, no_nan (bbox r) -> strip (text r) = text r ->
                  (In r (_filter_spans self spans)
                   <-> In r spans /\ passes_trimmed self r)).
Proof.
  intros self spans. rewrite filter_spans_filter.
  split; [reflexivity|]. split; [apply keeps_iff|].
  split; [|split; [|split]].
  - intros r. rewrite filter_In, keeps_iff. tauto.
  - apply filter_subseq.
  - intros r Hin Hp. apply filter_In. split; [exact Hin | now apply passes_keeps].
  - intros r Hn Ht. rewrite filter_In.
    assert (Hpt : passes self r <-> passes_trimmed self r).
    { unfold passes, passes_trimmed. rewrite Ht. tauto. }
    rewrite <- Hpt. split; intros [Hin H]; (split; [exact Hin|]).
    + now apply keeps_passes.
    + now apply passes_keeps.
Qed.

(** C3: a box with a NaN coordinate goes through the filter, because each
    comparison that would reject it is false.  The run "Title" with the box
    (NaN, 10, 100, 25) is built into a record with trimmed text, the filter
    keeps it and [extract_text_spans] returns it, although [x2 > x1] does not
    hold of its box: the filter does not keep only the records that pass the
    four tests. *)
Theorem filter_spans_keeps_nan_box :
  build_span (run_at "Title" (Fin 12) NaN) 1
  = Ok (Some (record_at "Title" (Fin 12) NaN 1))
  /\ strip (text (record_at "Title" (Fin 12) NaN 1))
     = text (record_at "Title" (Fin 12) NaN 1)
  /\ _is_valid_bbox (NaN, Fin 10, Fin 100, Fin 25) = true
  /\ _filter_spans default_extractor [record_at "Title" (Fin 12) NaN 1]
     = [record_at "Title" (Fin 12) NaN 1]
  /\ extract_text_spans nan_box_document default_extractor "doc.pdf" []
     = (Ok [record_at "Title" (Fin 12) NaN 1], [])
  /\ num_lt NaN (Fin 100) = false
  /\ ~ bbox_sane (bbox (record_at "Title" (Fin 12) NaN 1))
  /\ ~ filter_keeps_exactly_passing.
Proof.
  assert (Hbox : ~ bbox_sane (bbox (record_at "Title" (Fin 12) NaN 1))).
  { intros (Hx & _). discriminate Hx. }
  repeat (split; [reflexivity|]). split; [exact Hbox|].
  intros H.
  destruct (H default_extractor [record_at "Title" (Fin 12) NaN 1]
              (record_at "Title" (Fin 12) NaN 1)) as [Hin _].
  - intros x [<-|[]]. reflexivity.
  - destruct Hin as (_ & _ & _ & _ & Hsane); [left; reflexivity|].
    exact (Hbox Hsane).
Qed.

(** The boundaries of the default size interval. *)
Example filter_spans_default_bounds :
  _filter_spans default_extractor [sample_span "Title" (59 # 10) (0, 0, 100, 20)%Q] = []
  /\ _filter_spans default_extractor [sample_span "Title" 6 (0, 0, 100, 20)%Q]
     = [sample_span "Title" 6 (0, 0, 100, 20)%Q]
  /\ _filter_spans default_extractor [sample_span "Title" 72 (0, 0, 100, 20)%Q]
     = [sample_span "Title" 72 (0, 0, 100, 20)%Q]
  /\ _filter_spans default_extractor [sample_span "Title" (721 # 10) (0, 0, 100, 20)%Q] = [].
Proof. repeat split. Qed.

Example filter_spans_boxes :
  _is_valid_bbox (box (5, 5, 5, 10)%Q) = false
  /\ _is_valid_bbox (box (5, 5, -1, 10)%Q) = false
  /\ _is_valid_bbox (box (0, 0, 100, 20)%Q) = true
  /\ _is_valid_bbox (box (0, 0, 10000, 10000)%Q) = true
  /\ _is_valid_bbox (box (0, 0, 10001, 20)%Q) = false
  /\ _is_valid_bbox (Fin 0, Fin 0, PInf, Fin 20) = false.
Proof. repeat split. Qed.

Example filter_spans_order :
  let a := sample_span "first" 12 (0, 0, 100, 20)%Q in
  let b := sample_span "x" 12 (0, 0, 100, 20)%Q in
  let c := sample_span "!!" 12 (0, 0, 100, 20)%Q in
  let d := sample_span "a!!!!!!!" 12 (0, 0, 100, 20)%Q in
  let e := sample_span "last" 12 (0, 0, 100, 20)%Q in
  _filter_spans default_extractor [a; b; c; d; e] = [a; c; e].
Proof. reflexivity. Qed.

(** C9: the filter is idempotent for every configuration. *)
Theorem filter_spans_idempotent :
  forall (self : PDFTextExtractor) (spans : list SpanInfo),
    _filter_spans self (_filter_spans self spans) = _filter_spans self spans.
Proof.
  intros self spans. rewrite !filter_spans_filter. apply filter_idempotent.
Qed.

(** ** The page walk *)

Lemma for_each_app {S A} (xs ys : list A) (body : A -> Eff S unit) (s : S) :
  for_each (xs ++ ys)%list body s
  = bind (for_each xs body) (fun _ => for_each ys body) s.
Proof.
  revert s. induction xs as [|x xs IH]; intros s; simpl.
  - unfold bind, ret. reflexivity.
  - unfold bind in *. destruct (body x s) as [[[]|e] s']; [apply IH | reflexivity].
Qed.

Lemma for_each_flat_map {S A B} (f : A -> list B) (body : A -> Eff S unit)
    (body' : B -> Eff S unit) (xs : list A) :
  (forall x s, body x s = for_each (f x) body' s) ->
  forall s, for_each xs body s = for_each (flat_map f xs) body' s.
Proof.
  intros Hbody. induction xs as [|x xs IH]; intros s; [reflexivity|].
  cbn [for_each flat_map]. rewrite for_each_app.
  unfold bind. rewrite Hbody.
  destruct (for_each (f x) body' s) as [[[]|e] s']; [apply IH | reflexivity].
Qed.

Lemma walk_line_steps (page_num : Z) (line : RawLine) (s : list SpanInfo) :
  walk_line page_num line s = for_each (line_steps line) (do_step page_num) s.
Proof.
  unfold walk_line, line_steps. destruct (l_spans line) as [spans|]; [|reflexivity].
  unfold bind, lift. cbn [getitem].
  revert s. induction spans as [|span spans IH]; intros s; [reflexivity|].
  cbn [for_each map do_step]. unfold bind.
  destruct (walk_span page_num span s) as [[[]|e] s']; [apply IH | reflexivity].
Qed.

Lemma walk_block_steps (page_num : Z) (block : RawBlock) (s : list SpanInfo) :
  walk_block page_num block s = for_each (block_steps block) (do_step page_num) s.
Proof.
  unfold walk_block, block_steps. destruct (b_lines block) as [lines|]; [|reflexivity].
  apply for_each_flat_map. intros line s'. apply walk_line_steps.
Qed.

(** The nested loops visit the steps of the page in order. *)
Lemma walk_page_steps (page : RawPage) (page_num : Z) (s : list SpanInfo) :
  walk_page page page_num s = for_each (page_steps page) (do_step page_num) s.
Proof.
  unfold walk_page, page_steps, bind, lift.
  destruct (p_blocks page) as [blocks|e]; [|reflexivity].
  apply for_each_flat_map. intros block s'. apply walk_block_steps.
Qed.

Lemma for_each_runs_ok (page_num : Z) (runs : list RawSpan) (rest : list step)
    (s : list SpanInfo) :
  (forall span, In span runs -> exists o, build_span span page_num = Ok o) ->
  for_each (map Run runs ++ rest)%list (do_step page_num) s
  = for_each rest (do_step page_num) (s ++ records_of page_num runs)%list.
Proof.
  revert s. induction runs as [|span runs IH]; intros s Hok.
  - simpl. now rewrite app_nil_r.
  - destruct (Hok span (or_introl eq_refl)) as [o Ho].
    cbn [map app for_each do_step records_of flat_map].
    unfold bind at 1, walk_span, bind at 1, lift at 1. rewrite Ho.
    fold (records_of page_num runs).
    destruct o as [r|]; cbn [modify ret].
    + rewrite IH by (intros sp Hin; apply Hok; now right).
      now rewrite <- app_assoc.
    + rewrite IH by (intros sp Hin; apply Hok; now right). reflexivity.
Qed.

(** A page without faults of structure raises at the first run whose record
    cannot be built, with the records of the runs before it in the list. *)
Lemma walk_page_first_failure (page : RawPage) (page_num : Z)
    (before after : list RawSpan) (bad : RawSpan) (e : exn) :
  page_steps page = map Run (before ++ bad :: after)%list ->
  (forall span, In span before -> exists o, build_span span page_num = Ok o) ->
  build_span bad page_num = Err e ->
  walk_page page page_num [] = (Err e, records_of page_num before).
Proof.
  intros Hsteps Hbefore Hbad.
  rewrite walk_page_steps, Hsteps, map_app, for_each_runs_ok by assumption.
  cbn [map for_each do_step app]. unfold bind at 1, walk_span, bind at 1, lift.
  now rewrite Hbad.
Qed.

(** A page on which nothing raises yields the records of all its runs. *)
Lemma walk_page_no_failure (page : RawPage) (page_num : Z) (runs : list RawSpan) :
  page_steps page = map Run runs ->
  (forall span, In span runs -> exists o, build_span span page_num = Ok o) ->
  walk_page page page_num [] = (Ok tt, records_of page_num runs).
Proof.
  intros Hsteps Hruns.
  rewrite walk_page_steps, Hsteps, <- (app_nil_r (map Run runs)).
  rewrite for_each_runs_ok by assumption. reflexivity.
Qed.

(** C1, as the code isolates failures: on a page whose structure is walked
    without fault, an exception raised while the record of one run is built
    ([InvalidSpan] among them) ends the walk of that page: the page yields
    the records of the runs before the failing one, in their order, none of
    the runs after it, and one warning is logged. *)
Theorem extract_page_spans_stops_at_failure :
  forall (page : RawPage) (page_num : Z) (before after : list RawSpan)
         (bad : RawSpan) (e : exn) (log : Log),
    page_steps page = map Run (before ++ bad :: after)%list ->
    (forall span, In span before -> exists o, build_span span page_num = Ok o) ->
    build_span bad page_num = Err e ->
    _extract_page_spans page page_num log
    = (Ok (records_of page_num before), (log ++ [page_warning page_num e])%list).
Proof.
  intros page page_num before after bad e log Hsteps Hbefore Hbad.
  unfold _extract_page_spans.
  rewrite (walk_page_first_failure _ _ _ _ _ _ Hsteps Hbefore Hbad).
  reflexivity.
Qed.

(** C1, counterexample: of three runs on one line, the second has size 0 and
    fails the validation of the record; the third, which would build its
    record, is lost with it. *)
Lemma failing_run_loses_later_siblings :
  let page := page_of [run "Introduction" 14; run "Broken" 0; run "Summary" 12] in
  build_span (run "Broken" 0) 1 = Err (Exn ValueError "Font size must be positive")
  /\ build_span (run "Summary" 12) 1 = Ok (Some (record "Summary" 12 1))
  /\ _extract_page_spans page 1 []
     = (Ok [record "Introduction" 14 1],
        ["Error extracting spans from page 1: Font size must be positive"])
  /\ ~ failing_run_only_skips_itself.
Proof.
  cbv zeta. split; [reflexivity|]. split; [reflexivity|]. split; [reflexivity|].
  intros H.
  destruct (H (page_of [run "Introduction" 14; run "Broken" 0; run "Summary" 12])
              1 [run "Introduction" 14; run "Broken" 0; run "Summary" 12] []
              (run "Summary" 12) (record "Summary" 12 1))
    as (spans & Hs & Hin).
  - reflexivity.
  - intros other e [<-|[<-|[<-|[]]]] He; vm_compute in He;
      try discriminate He. now injection He as <-.
  - right. right. left. reflexivity.
  - reflexivity.
  - vm_compute in Hs. injection Hs as <-.
    destruct Hin as [Hin|[]]. discriminate Hin.
Qed.

(** The page of three runs whose second run fails. *)
Lemma extract_page_spans_stops_at_failure_witness :
  _extract_page_spans
    (page_of [run "Introduction" 14; run "Broken" 0; run "Summary" 12]) 1 []
  = (Ok [record "Introduction" 14 1],
     ["Error extracting spans from page 1: Font size must be positive"]).
Proof.
  refine (extract_page_spans_stops_at_failure
            (page_of [run "Introduction" 14; run "Broken" 0; run "Summary" 12]) 1
            [run "Introduction" 14] [run "Summary" 12] (run "Broken" 0)
            (Exn ValueError "Font size must be positive") [] _ _ _).
  - reflexivity.
  - intros span [<-|[]]. eexists. reflexivity.
  - reflexivity.
Defined.

(** ** The document loop *)

(** [_extract_page_spans] never raises: its [try] catches every exception. *)
Lemma extract_page_spans_total (page : RawPage) (page_num : Z) (log : Log) :
  _extract_page_spans page page_num log
  = (Ok (page_records page page_num), (log ++ page_warnings page page_num)%list).
Proof.
  unfold _extract_page_spans, page_records, page_warnings.
  destruct (walk_page page page_num []) as [[[]|e] spans]; simpl.
  - unfold ret. now rewrite app_nil_r.
  - reflexivity.
Qed.

Lemma pages_loop_total (pages : list RawPage) :
  forall (page_num : Z) (spans : list SpanInfo) (log : Log),
    pages_loop pages page_num spans log
    = (Ok (spans ++ doc_records pages page_num)%list,
       (log ++ doc_warnings pages page_num)%list).
Proof.
  induction pages as [|page rest IH]; intros page_num spans log; simpl.
  - unfold ret. now rewrite !app_nil_r.
  - unfold bind at 1, try_except, bind at 1.
    rewrite extract_page_spans_total. cbn [ret].
    rewrite IH. now rewrite <- !app_assoc.
Qed.

Lemma doc_records_app (pre post : list RawPage) (page_num : Z) :
  doc_records (pre ++ post) page_num
  = (doc_records pre page_num
     ++ doc_records post (page_num + Z.of_nat (List.length pre)))%list.
Proof.
  revert page_num. induction pre as [|page pre IH]; intros page_num.
  - simpl. now rewrite Z.add_0_r.
  - cbn [app doc_records List.length]. rewrite IH, <- app_assoc.
    replace (page_num + Z.of_nat (S (List.length pre)))
      with (page_num + 1 + Z.of_nat (List.length pre)) by lia.
    reflexivity.
Qed.

Lemma doc_warnings_app (pre post : list RawPage) (page_num : Z) :
  doc_warnings (pre ++ post) page_num
  = (doc_warnings pre page_num
     ++ doc_warnings post (page_num + Z.of_nat (List.length pre)))%list.
Proof.
  revert page_num. induction pre as [|page pre IH]; intros page_num.
  - simpl. now rewrite Z.add_0_r.
  - cbn [app doc_warnings List.length]. rewrite IH, <- app_assoc.
    replace (page_num + Z.of_nat (S (List.length pre)))
      with (page_num + 1 + Z.of_nat (List.length pre)) by lia.
    reflexivity.
Qed.

(** The outcome of [extract_text_spans] in terms of what [fitz.open] did. *)
Lemma extract_text_spans_outcome (fitz_open : DocumentSource)
    (self : PDFTextExtractor) (pdf_path : string) (log : Log) :
  extract_text_spans fitz_open self pdf_path log
  = match fitz_open pdf_path with
    | Ok doc => (Ok (_filter_spans self (doc_records doc 1)),
                 (log ++ doc_warnings doc 1)%list)
    | Err e =>
        (Err (match exn_cls e with
              | FileNotFoundError =>
                  Exn FileNotFoundError ("PDF file not found: " ++ pdf_path)
              | _ =>
                  Exn RuntimeError ("Failed to extract text from " ++ pdf_path
                                    ++ ": " ++ exn_msg e)
              end), log)
    end.
Proof.
  unfold extract_text_spans, try_except, bind at 1, lift.
  destruct (fitz_open pdf_path) as [doc|e].
  - unfold bind. rewrite pages_loop_total. reflexivity.
  - destruct (exn_cls e); reflexivity.
Qed.

(** A page whose structure faults after some runs raises the fault, with the
    records of those runs in the list. *)
Lemma walk_page_fault (page : RawPage) (page_num : Z) (before : list RawSpan)
    (e : exn) (rest : list step) :
  page_steps page = (map Run before ++ Fault e :: rest)%list ->
  (forall span, In span before -> exists o, build_span span page_num = Ok o) ->
  walk_page page page_num [] = (Err e, records_of page_num before).
Proof.
  intros Hsteps Hbefore.
  rewrite walk_page_steps, Hsteps, for_each_runs_ok by assumption.
  reflexivity.
Qed.

(** C4: when the walk of the structure of one page raises partway through,
    after runs whose records were built, the page contributes exactly those
    records, one warning is logged for it, and the other pages are extracted
    as usual: the call returns normally with the filtered records of the
    pages before, of the part of the page that was walked, and of the pages
    after. *)
Theorem page_fault_keeps_partial_records :
  forall (fitz_open : DocumentSource) (self : PDFTextExtractor) (pdf_path : string)
         (pre post : list RawPage) (page : RawPage) (before : list RawSpan)
         (e : exn) (rest : list step) (log : Log),
    let page_num := Z.of_nat (List.length pre) + 1 in
    fitz_open pdf_path = Ok (pre ++ page :: post)%list ->
    page_steps page = (map Run before ++ Fault e :: rest)%list ->
    (forall span, In span before -> exists o, build_span span page_num = Ok o) ->
    _extract_page_spans page page_num log
    = (Ok (records_of page_num before), (log ++ [page_warning page_num e])%list)
    /\ extract_text_spans fitz_open self pdf_path log
       = (Ok (_filter_spans self
                (doc_records pre 1 ++ records_of page_num before
                 ++ doc_records post (page_num + 1))%list),
          (log ++ doc_warnings pre 1 ++ [page_warning page_num e]
           ++ doc_warnings post (page_num + 1))%list).
Proof.
  intros fitz_open self pdf_path pre post page before e rest log page_num
         Hopen Hsteps Hbefore.
  pose proof (walk_page_fault _ _ _ _ _ Hsteps Hbefore) as Hwalk.
  split.
  - unfold _extract_page_spans. rewrite Hwalk. reflexivity.
  - rewrite extract_text_spans_outcome, Hopen.
    rewrite doc_records_app, doc_warnings_app.
    cbn [doc_records doc_warnings]. unfold page_records, page_warnings.
    replace (1 + Z.of_nat (List.length pre)) with page_num by (unfold page_num; lia).
    rewrite Hwalk. reflexivity.
Qed.

Lemma page_fault_keeps_partial_records_witness :
  _extract_page_spans torn_page 2 []
  = (Ok [record "Alpha" 12 2], ["Error extracting spans from page 2: 'spans'"])
  /\ extract_text_spans three_pages default_extractor "doc.pdf" []
     = (Ok [record "Introduction" 14 1; record "Alpha" 12 2; record "Summary" 12 3],
        ["Error extracting spans from page 2: 'spans'"]).
Proof.
  apply (page_fault_keeps_partial_records three_pages default_extractor "doc.pdf"
           [page_of [run "Introduction" 14]] [page_of [run "Summary" 12]]
           torn_page [run "Alpha" 12] (Exn KeyError "'spans'")
           [Run (run "Beta" 12)] []).
  - reflexivity.
  - reflexivity.
  - intros span [<-|[]]. eexists. reflexivity.
Defined.

(** C5: a path that does not exist is not reported as [FileNotFoundError]:
    the document library raises its own [fitz.FileNotFoundError], which the
    clause [except FileNotFoundError] does not catch, so the call raises the
    [RuntimeError] of the general clause, with the text of the cause, and
    logs nothing. *)
Theorem extract_text_spans_missing_file :
  forall (fitz_open : DocumentSource) (self : PDFTextExtractor)
         (pdf_path : string) (log : Log) (msg : string),
    fitz_open pdf_path = Err (Exn FitzFileNotFoundError msg) ->
    extract_text_spans fitz_open self pdf_path log
    = (Err (Exn RuntimeError ("Failed to extract text from " ++ pdf_path
                              ++ ": " ++ msg)), log)
    /\ fst (extract_text_spans fitz_open self pdf_path log)
       <> Err (Exn FileNotFoundError ("PDF file not found: " ++ pdf_path)).
Proof.
  intros fitz_open self pdf_path log msg Hopen.
  rewrite extract_text_spans_outcome, Hopen. cbn [exn_cls exn_msg fst].
  split; [reflexivity | discriminate].
Qed.

Lemma extract_text_spans_missing_file_witness :
  extract_text_spans missing_file default_extractor "missing.pdf" []
  = (Err (Exn RuntimeError
            "Failed to extract text from missing.pdf: no such file: 'missing.pdf'"),
     [])
  /\ fst (extract_text_spans missing_file default_extractor "missing.pdf" [])
     <> Err (Exn FileNotFoundError "PDF file not found: missing.pdf").
Proof.
  refine (extract_text_spans_missing_file missing_file default_extractor
            "missing.pdf" [] "no such file: 'missing.pdf'" _).
  reflexivity.
Defined.

(** X27: what reaches the caller of [extract_text_spans] is decided by the
    opening of the document alone: [FileNotFoundError] when opening raised
    the builtin [FileNotFoundError], a [RuntimeError] whose text ends with
    the text of the cause when opening raised anything else, and a normal
    return whenever the document was opened: no exception of a run or of a
    page reaches the caller. *)
Theorem extract_text_spans_failures :
  forall (fitz_open : DocumentSource) (self : PDFTextExtractor)
         (pdf_path : string) (log : Log),
    let outcome := fst (extract_text_spans fitz_open self pdf_path log) in
    (forall e, fitz_open pdf_path = Err e -> exn_cls e = FileNotFoundError ->
       outcome = Err (Exn FileNotFoundError ("PDF file not found: " ++ pdf_path)))
    /\ (forall e, fitz_open pdf_path = Err e -> exn_cls e <> FileNotFoundError ->
       outcome = Err (Exn RuntimeError ("Failed to extract text from " ++ pdf_path
                                        ++ ": " ++ exn_msg e)))
    /\ (forall doc, fitz_open pdf_path = Ok doc ->
       outcome = Ok (_filter_spans self (doc_records doc 1)))
    /\ (forall e', outcome = Err e' ->
       (exn_cls e' = FileNotFoundError \/ exn_cls e' = RuntimeError)
       /\ exists e, fitz_open pdf_path = Err e).
Proof.
  intros fitz_open self pdf_path log. cbv zeta.
  rewrite extract_text_spans_outcome.
  destruct (fitz_open pdf_path) as [doc|e]; cbn [fst].
  - split; [intros e H; discriminate|]. split; [intros e H; discriminate|].
    split; [intros d H; now injection H as <-|]. intros e' H; discriminate.
  - split; [|split; [|split]].
    + intros e0 H Hc. injection H as <-. now rewrite Hc.
    + intros e0 H Hc. injection H as <-.
      destruct (exn_cls e); try reflexivity. now elim Hc.
    + intros d H; discriminate.
    + intros e' H. injection H as <-. split; [|now exists e].
      destruct (exn_cls e); simpl; auto.
Qed.

Example extract_text_spans_not_found :
  fst (extract_text_spans
         (fun _ => Err (Exn FileNotFoundError "no such file: 'a.pdf'"))
         default_extractor "a.pdf" [])
  = Err (Exn FileNotFoundError "PDF file not found: a.pdf").
Proof. reflexivity. Qed.

Example extract_text_spans_corrupt :
  fst (extract_text_spans (fun _ => Err (Exn ValueError "cannot open broken document"))
         default_extractor "a.pdf" [])
  = Err (Exn RuntimeError "Failed to extract text from a.pdf: cannot open broken document").
Proof. reflexivity. Qed.

(** The end-to-end example of the specification: one page, one run. *)
Example extract_text_spans_single_run :
  extract_text_spans (fun _ => Ok [page_of [run "Introduction" 14]])
    default_extractor "a.pdf" []
  = (Ok [record "Introduction" 14 1], []).
Proof. reflexivity. Qed.

(** ** Inverted size bounds *)

Lemma inverted_bounds_keep_nothing (self : PDFTextExtractor) (r : SpanInfo) :
  num_lt (max_font_size self) (min_font_size self) = true -> keeps self r = false.
Proof.
  intros Hinv. apply not_true_is_false. intros E.
  apply keeps_iff in E. destruct E as ((Hlo & Hhi) & _).
  pose proof (num_le_trans _ _ _ Hlo Hhi) as Hle.
  apply num_lt_not_le in Hinv. congruence.
Qed.

(** C10: with [min_font_size > max_font_size] no size lies in the interval:
    the filter returns the empty list for every list of records, and so does
    the extraction with custom settings for every document that opens. *)
Theorem inverted_size_bounds_reject_all :
  forall (min_size max_size : num),
    num_lt max_size min_size = true ->
    (forall spans,
       _filter_spans {| min_font_size := min_size; max_font_size := max_size |} spans
       = [])
    /\ (forall (fitz_open : DocumentSource) (pdf_path : string) (log : Log) doc,
          fitz_open pdf_path = Ok doc ->
          fst (extract_text_spans_enhanced fitz_open pdf_path min_size max_size log)
          = Ok []).
Proof.
  intros min_size max_size Hinv.
  assert (Hall : forall spans,
            _filter_spans {| min_font_size := min_size; max_font_size := max_size |} spans
            = []).
  { intros spans. rewrite filter_spans_filter.
    induction spans as [|r spans IH]; [reflexivity|]. simpl.
    rewrite inverted_bounds_keep_nothing by exact Hinv. exact IH. }
  split; [exact Hall|].
  intros fitz_open pdf_path log doc Hopen.
  unfold extract_text_spans_enhanced.
  rewrite extract_text_spans_outcome, Hopen. cbn [fst]. now rewrite Hall.
Qed.

Lemma inverted_size_bounds_reject_all_witness :
  _filter_spans {| min_font_size := Fin 20; max_font_size := Fin 10 |}
    [sample_span "Title" 12 (0, 0, 100, 20)%Q; sample_span "Body" 15 (0, 30, 100, 50)%Q]
  = []
  /\ fst (extract_text_spans_enhanced three_pages "doc.pdf" (Fin 20) (Fin 10) [])
     = Ok [].
Proof.
  destruct (inverted_size_bounds_reject_all (Fin 20) (Fin 10)) as [Hfilter Hextract].
  - reflexivity.
  - split; [apply Hfilter | apply (Hextract three_pages "doc.pdf" [] _ eq_refl)].
Defined.

(** * Further properties of the code *)

(** ** Runs *)

Lemma lstrip_blank (t : string) :
  all_chars char_isspace t = true -> lstrip t = "".
Proof.
  induction t as [|c t IH]; simpl; [reflexivity|].
  destruct (char_isspace c); simpl; [exact IH | discriminate].
Qed.

Lemma strip_blank (t : string) :
  all_chars char_isspace t = true -> strip t = "".
Proof. intros H. unfold strip. now rewrite lstrip_blank. Qed.

(** X1: a run whose text is empty or only white space is passed over before
    anything else of it is read: it yields no record and raises nothing,
    whatever its box, size, font, flags and colour are, missing or invalid. *)
Theorem blank_run_is_skipped :
  forall (span : RawSpan) (t : string) (page_num : Z),
    s_text span = Some t ->
    all_chars char_isspace t = true ->
    build_span span page_num = Ok None.
Proof.
  intros span t page_num Ht Hblank. unfold build_span.
  rewrite Ht. cbn [getitem]. now rewrite (strip_blank t Hblank).
Qed.

Lemma blank_run_is_skipped_witness :
  build_span {| s_text := Some "  "; s_bbox := None; s_size := Some (Fin (-3));
                s_font := Some NoneObj; s_flags := Some (Str "bold");
                s_color := Some NoneObj |} 0
  = Ok None.
Proof.
  refine (blank_run_is_skipped _ "  " 0 _ _); reflexivity.
Defined.

(** The colour of a run is "black" or "#" and the formatted integer: the
    [except] clause leaves nothing to raise. *)
Lemma parse_color_cases (span : RawSpan) :
  _parse_color span = Ok "black"
  \/ exists c, s_color span = Some (Int c) /\ c <> 0
               /\ _parse_color span = Ok ("#" ++ format_06x_int c).
Proof.
  unfold _parse_color. destruct (s_color span) as [[c| |]|]; cbn.
  - destruct (Z.eqb_spec c 0) as [->|Hc]; [now left|].
    right. exists c. repeat split. exact Hc.
  - now left.
  - now left.
  - now left.
Qed.

(** X2: the colour is decoded without raising whatever the dictionary holds:
    a missing key, a string, [None] and the integer 0 give "black"; only a
    non-zero integer gives a "#" text. *)
Theorem parse_color_never_raises :
  forall span : RawSpan,
    (exists s, _parse_color span = Ok s)
    /\ (_parse_color span <> Ok "black" ->
        exists c, s_color span = Some (Int c) /\ c <> 0
                  /\ _parse_color span = Ok ("#" ++ format_06x_int c))
    /\ ((forall c, s_color span <> Some (Int c)) -> _parse_color span = Ok "black").
Proof.
  intros span. destruct (parse_color_cases span) as [Hb | (c & Hc & Hnz & Hr)].
  - split; [now exists "black"|]. split; [intros H; contradiction|]. now intros _.
  - split; [exists ("#" ++ format_06x_int c); exact Hr|].
    split; [intros _; now exists c|].
    intros H. now elim (H c).
Qed.

Lemma format_06x_int_neg (c : Z) :
  c < 0 ->
  exists digits, format_06x_int c = "-" ++ digits /\ hex_value digits = - c.
Proof.
  intros Hc. unfold format_06x_int. destruct (Z.ltb_spec c 0); [|lia].
  exists (zfill 5 (hex (- c))). split; [reflexivity|].
  destruct (hex_ok (- c)) as (Hv & _); [lia|].
  destruct (zeros_ok (5 - String.length (hex (- c)))) as (_ & _ & Zv).
  unfold zfill, hex_value. now rewrite Zv.
Qed.

Lemma format_06x_int_head (c : Z) :
  0 < c ->
  exists d rest, format_06x_int c = String d rest /\ is_lower_hex d = true.
Proof.
  intros Hc. destruct (format_06x_int_pos c Hc) as (Hl & Hh & _).
  destruct (format_06x_int c) as [|d rest]; [simpl in Hl; lia|].
  exists d, rest. split; [reflexivity|].
  simpl in Hh. now apply andb_true_iff in Hh.
Qed.

Lemma format_06x_int_injective (c1 c2 : Z) :
  c1 <> 0 -> c2 <> 0 -> format_06x_int c1 = format_06x_int c2 -> c1 = c2.
Proof.
  intros H1 H2 Heq.
  destruct (Z.lt_trichotomy c1 0) as [N1|[?|P1]]; [|contradiction|];
    destruct (Z.lt_trichotomy c2 0) as [N2|[?|P2]]; try contradiction.
  - destruct (format_06x_int_neg c1 N1) as (d1 & E1 & V1).
    destruct (format_06x_int_neg c2 N2) as (d2 & E2 & V2).
    rewrite E1, E2 in Heq. injection Heq as ->. lia.
  - destruct (format_06x_int_neg c1 N1) as (d1 & E1 & _).
    destruct (format_06x_int_head c2 P2) as (d & rest & E2 & Hd).
    rewrite E1, E2 in Heq. injection Heq as <- _. discriminate Hd.
  - destruct (format_06x_int_neg c2 N2) as (d2 & E2 & _).
    destruct (format_06x_int_head c1 P1) as (d & rest & E1 & Hd).
    rewrite E1, E2 in Heq. injection Heq as -> _. discriminate Hd.
  - destruct (format_06x_int_pos c1 P1) as (_ & _ & V1 & _).
    destruct (format_06x_int_pos c2 P2) as (_ & _ & V2 & _).
    rewrite <- V1, <- V2. now rewrite Heq.
Qed.

(** X3: decoding is injective on integers: two runs whose colours are
    different integers get different colour texts, and only the integer 0
    gets "black". *)
Theorem parse_color_injective :
  forall c1 c2 : Z,
    _parse_color (color_only (Int c1)) = _parse_color (color_only (Int c2)) ->
    c1 = c2.
Proof.
  intros c1 c2. unfold _parse_color, color_only.
  cbn [s_color dict_get eq_zero format_06x].
  destruct (Z.eqb_spec c1 0) as [->|H1]; destruct (Z.eqb_spec c2 0) as [->|H2].
  - reflexivity.
  - intros H. discriminate H.
  - intros H. discriminate H.
  - intros H. injection H as H. now apply format_06x_int_injective.
Qed.

Lemma parse_color_injective_witness : 16711840 = 0xFF00A0.
Proof.
  refine (parse_color_injective 16711840 0xFF00A0 _). reflexivity.
Defined.

Lemma strip_not_isspace (t : string) : isspace (strip t) = false.
Proof.
  unfold strip. destruct (lstrip_head t) as [H | (c & t' & H & Hc)]; rewrite H.
  - reflexivity.
  - destruct (rstrip_head c t' Hc) as [t'' Ht]. rewrite Ht.
    simpl. now rewrite Hc.
Qed.

Lemma SpanInfo_init_valid (t : string) (b : list num) (sz : num) (p : Z)
    (f : obj) (bold italic : bool) (c : string) (r : SpanInfo) :
  SpanInfo_init t b sz p f bold italic c = Ok r ->
  1 <= p /\ num_le sz (Fin 0) = false /\ List.length b = 4%nat.
Proof.
  intros H. apply (proj1 (SpanInfo_init_checks t b sz p f bold italic c)).
  now exists r.
Qed.

Lemma SpanInfo_init_error (t : string) (b : list num) (sz : num) (p : Z)
    (f : obj) (bold italic : bool) (c : string) (e : exn) :
  SpanInfo_init t b sz p f bold italic c = Err e -> exn_cls e = ValueError.
Proof.
  unfold SpanInfo_init.
  destruct (p <? 1); [now intros H; injection H as <-|].
  destruct (num_le sz (Fin 0)); [now intros H; injection H as <-|].
  destruct b as [|x1 [|y1 [|x2 [|y2 [|z b]]]]];
    intros H; try discriminate H; now injection H as <-.
Qed.

(** The style of a run is computed without raising exactly when the flags
    are an integer and the font name is a string or is not needed; flags of
    another type raise a [TypeError], a font name of another type that is
    needed an [AttributeError]. *)
Lemma parse_font_info_cases (span : RawSpan) :
  (font_usable span = true /\ exists info, _parse_font_info span = Ok info
                                          /\ font_name info = dict_get (s_font span) (Str ""))
  \/ (font_usable span = false
      /\ exists e, _parse_font_info span = Err e
                   /\ (exn_cls e = TypeError \/ exn_cls e = AttributeError)).
Proof.
  unfold font_usable, _parse_font_info.
  destruct (dict_get (s_flags span) (Int 0)) as [g| |]; cbn [flag_set or_else].
  - destruct (dict_get (s_font span) (Str "")) as [n|f|]; cbn [name_contains];
      destruct (truthy (Z.land g 16)); destruct (truthy (Z.land g 2));
      cbn [or_else andb];
      try (left; split; [reflexivity|]; eexists; split; reflexivity);
      right; (split; [reflexivity|]); eexists; (split; [reflexivity|]); now right.
  - right. split; [reflexivity|]. eexists. split; [reflexivity|]. now left.
  - right. split; [reflexivity|]. eexists. split; [reflexivity|]. now left.
Qed.

(** How [build_span] goes through its reads, one case for each way out. *)
Lemma build_span_cases (span : RawSpan) (page_num : Z) :
  (s_text span = None
   /\ build_span span page_num = Err (Exn KeyError "'text'"))
  \/ (exists t, s_text span = Some t /\ strip t = ""
                /\ build_span span page_num = Ok None)
  \/ (exists t e, s_text span = Some t /\ strip t <> ""
                  /\ _parse_font_info span = Err e
                  /\ build_span span page_num = Err e)
  \/ (exists t info, s_text span = Some t /\ strip t <> ""
                     /\ _parse_font_info span = Ok info /\ s_bbox span = None
                     /\ build_span span page_num = Err (Exn KeyError "'bbox'"))
  \/ (exists t info b, s_text span = Some t /\ strip t <> ""
                       /\ _parse_font_info span = Ok info /\ s_bbox span = Some b
                       /\ s_size span = None
                       /\ build_span span page_num = Err (Exn KeyError "'size'"))
  \/ (exists t info b sz color,
        s_text span = Some t /\ strip t <> ""
        /\ _parse_font_info span = Ok info /\ s_bbox span = Some b
        /\ s_size span = Some sz /\ _parse_color span = Ok color
        /\ build_span span page_num
           = match SpanInfo_init (strip t) b sz page_num
                     (font_name info) (fi_is_bold info) (fi_is_italic info)
                     color with
             | Ok r => Ok (Some r)
             | Err e => Err e
             end).
Proof.
  unfold build_span. destruct (s_text span) as [t|]; cbn [getitem]; [|now left].
  right. destruct (strip t) as [|c0 t0] eqn:Es.
  { left. exists t. repeat split; try reflexivity; assumption. }
  right. pose proof (strip_not_isspace t) as Hns. rewrite Es in Hns.
  rewrite Hns. cbn [orb].
  assert (Hne : String c0 t0 <> "") by discriminate.
  destruct (_parse_font_info span) as [info|e].
  2:{ left. exists t, e. rewrite Es. repeat split; assumption. }
  right.
  assert (Hcol : exists color, _parse_color span = Ok color).
  { destruct (parse_color_cases span) as [Hc | (c & _ & _ & Hc)]; eexists; exact Hc. }
  destruct Hcol as [color Hc]. rewrite Hc.
  destruct (s_bbox span) as [b|]; cbn [getitem].
  2:{ left. exists t, info. rewrite Es. repeat split; assumption. }
  right. destruct (s_size span) as [sz|]; cbn [getitem].
  2:{ left. exists t, info, b. rewrite Es. repeat split; assumption. }
  right. exists t, info, b, sz, color. rewrite Es. repeat split; assumption.
Qed.

(** X4: a run yields a record exactly when its text is present and not
    blank, its flags are an integer and its font name a string, missing or
    not, or a font name of another type that is not looked at because both
    style bits are set, its box is present with four coordinates, its size is
    present and not [<= 0], and the page number is at least 1; the colour may
    be missing or hold any value. *)
Theorem build_span_succeeds_iff :
  forall (span : RawSpan) (page_num : Z),
    (exists r, build_span span page_num = Ok (Some r))
    <-> (exists t b sz,
           s_text span = Some t /\ strip t <> ""
           /\ font_usable span = true
           /\ s_bbox span = Some b /\ List.length b = 4%nat
           /\ s_size span = Some sz /\ num_le sz (Fin 0) = false
           /\ 1 <= page_num).
Proof.
  intros span page_num.
  destruct (build_span_cases span page_num)
    as [(Ht & H) | [(t & Ht & Hs & H) | [(t & e & Ht & Hs & Hf & H)
       | [(t & info & Ht & Hs & Hf & Hb & H)
         | [(t & info & b & Ht & Hs & Hf & Hb & Hz & H)
           | (t & info & b & sz & c & Ht & Hs & Hf & Hb & Hz & _ & H)]]]]].
  - split; [intros [r Hr]; rewrite H in Hr; discriminate|].
    intros (t & b & sz & Ht' & _). congruence.
  - split; [intros [r Hr]; rewrite H in Hr; discriminate|].
    intros (t' & b & sz & Ht' & Hne & _). congruence.
  - split; [intros [r Hr]; rewrite H in Hr; discriminate|].
    intros (t' & b & sz & _ & _ & Hu & _).
    destruct (parse_font_info_cases span) as [(_ & info & Hi & _) | (Hu' & _)];
      congruence.
  - split; [intros [r Hr]; rewrite H in Hr; discriminate|].
    intros (t' & b & sz & _ & _ & _ & Hb' & _). congruence.
  - split; [intros [r Hr]; rewrite H in Hr; discriminate|].
    intros (t' & b' & sz & _ & _ & _ & _ & _ & Hz' & _). congruence.
  - assert (Hu : font_usable span = true).
    { destruct (parse_font_info_cases span) as [(Hu & _) | (_ & e & He & _)];
        [exact Hu | congruence]. }
    rewrite H. split.
    + intros [r Hr].
      destruct (SpanInfo_init _ _ _ _ _ _ _ _) as [r'|e] eqn:Ei; [|discriminate].
      destruct (SpanInfo_init_valid _ _ _ _ _ _ _ _ _ Ei) as (Hp & Hpos & Hlen).
      exists t, b, sz. repeat split; assumption.
    + intros (t' & b' & sz' & Ht' & _ & _ & Hb' & Hlen & Hz' & Hpos & Hp).
      assert (b' = b) by congruence. assert (sz' = sz) by congruence. subst.
      destruct (proj2 (SpanInfo_init_checks (strip t) b sz page_num
                  (font_name info) (fi_is_bold info) (fi_is_italic info) c)
                  (conj Hp (conj Hpos Hlen))) as [r Hr].
      exists r. now rewrite Hr.
Qed.

(** X5: the record a run yields holds the trimmed, non-empty text of the
    run, its box and its size unchanged, the page number, the font entry (or
    the empty string), the style of [_parse_font_info] and the colour of
    [_parse_color]; the size is not [<= 0] and the page number at least 1. *)
Theorem build_span_record_fields :
  forall (span : RawSpan) (page_num : Z) (r : SpanInfo),
    build_span span page_num = Ok (Some r) ->
    built_on page_num r
    /\ (exists t, s_text span = Some t /\ text r = strip t)
    /\ s_bbox span = Some (bbox_coords (bbox r))
    /\ s_size span = Some (size r)
    /\ font r = dict_get (s_font span) (Str "")
    /\ (exists info, _parse_font_info span = Ok info
                     /\ is_bold r = fi_is_bold info
                     /\ is_italic r = fi_is_italic info)
    /\ _parse_color span = Ok (color r).
Proof.
  intros span page_num r Hr.
  destruct (build_span_cases span page_num)
    as [(Ht & H) | [(t & Ht & Hs & H) | [(t & e & Ht & Hs & Hf & H)
       | [(t & info & Ht & Hs & Hf & Hb & H)
         | [(t & info & b & Ht & Hs & Hf & Hb & Hz & H)
           | (t & info & b & sz & c & Ht & Hs & Hf & Hb & Hz & Hc & H)]]]]];
    rewrite H in Hr; try discriminate.
  destruct (SpanInfo_init _ _ _ _ _ _ _ _) as [r'|e] eqn:Ei; [|discriminate].
  injection Hr as <-.
  destruct (SpanInfo_init_valid _ _ _ _ _ _ _ _ _ Ei) as (Hp & Hpos & _).
  destruct (SpanInfo_init_fields _ _ _ _ _ _ _ _ _ Ei)
    as (Et & Eb & Esz & Ep & Ef & Ebold & Eit & Ec).
  assert (Hname : font_name info = dict_get (s_font span) (Str "")).
  { destruct (parse_font_info_cases span) as [(_ & i & Hi & Hn) | (_ & e & He & _)];
      congruence. }
  unfold built_on. rewrite Et, Eb, Esz, Ep, Ef, Ebold, Eit, Ec.
  repeat split; try assumption.
  - apply strip_idempotent.
  - now exists t.
  - now exists info.
Qed.

Lemma build_span_record_fields_witness :
  built_on 3 (record "Introduction" 14 3)
  /\ (exists t, s_text (run " Introduction " 14) = Some t
                /\ text (record "Introduction" 14 3) = strip t)
  /\ s_bbox (run " Introduction " 14)
     = Some (bbox_coords (bbox (record "Introduction" 14 3)))
  /\ s_size (run " Introduction " 14) = Some (size (record "Introduction" 14 3))
  /\ font (record "Introduction" 14 3)
     = dict_get (s_font (run " Introduction " 14)) (Str "")
  /\ (exists info, _parse_font_info (run " Introduction " 14) = Ok info
                   /\ is_bold (record "Introduction" 14 3) = fi_is_bold info
                   /\ is_italic (record "Introduction" 14 3) = fi_is_italic info)
  /\ _parse_color (run " Introduction " 14) = Ok (color (record "Introduction" 14 3)).
Proof.
  refine (build_span_record_fields (run " Introduction " 14) 3
            (record "Introduction" 14 3) _).
  reflexivity.
Defined.

(** X6: the exceptions raised by a run whose text, box and size, when
    present, are a string, a sequence of numbers and a number, in the order
    in which its entries are used: a [KeyError] for a missing "text"; then
    the [TypeError] of flags
    that are not an integer or the [AttributeError] of a font name that is
    not a string; then a [KeyError] for a missing "bbox", then for a missing
    "size"; at last the [ValueError] of the record constructor.  The colour
    never raises. *)
Theorem build_span_errors :
  forall (span : RawSpan) (page_num : Z) (e : exn),
    build_span span page_num = Err e ->
    (s_text span = None /\ e = Exn KeyError "'text'")
    \/ (s_text span <> None /\ _parse_font_info span = Err e
        /\ (exn_cls e = TypeError \/ exn_cls e = AttributeError))
    \/ (s_text span <> None /\ font_usable span = true /\ s_bbox span = None
        /\ e = Exn KeyError "'bbox'")
    \/ (s_text span <> None /\ font_usable span = true /\ s_bbox span <> None
        /\ s_size span = None /\ e = Exn KeyError "'size'")
    \/ (s_text span <> None /\ font_usable span = true /\ s_bbox span <> None
        /\ s_size span <> None /\ exn_cls e = ValueError).
Proof.
  intros span page_num e He.
  assert (Husable : forall info, _parse_font_info span = Ok info ->
                                 font_usable span = true).
  { intros info Hi.
    destruct (parse_font_info_cases span) as [(Hu & _) | (_ & e' & He' & _)];
      [exact Hu | congruence]. }
  destruct (build_span_cases span page_num)
    as [(Ht & H) | [(t & Ht & Hs & H) | [(t & e0 & Ht & Hs & Hf & H)
       | [(t & info & Ht & Hs & Hf & Hb & H)
         | [(t & info & b & Ht & Hs & Hf & Hb & Hz & H)
           | (t & info & b & sz & c & Ht & Hs & Hf & Hb & Hz & Hc & H)]]]]];
    rewrite H in He; try discriminate.
  - left. split; [assumption | congruence].
  - right. left. injection He as <-. split; [congruence|]. split; [exact Hf|].
    destruct (parse_font_info_cases span) as [(_ & i & Hi & _) | (_ & e' & He' & Hcls)];
      [congruence|].
    assert (e' = e0) by congruence. subst. exact Hcls.
  - right. right. left. repeat split; try congruence. now apply (Husable info).
  - right. right. right. left. repeat split; try congruence. now apply (Husable info).
  - right. right. right. right.
    destruct (SpanInfo_init _ _ _ _ _ _ _ _) as [r'|e'] eqn:Ei; [discriminate|].
    injection He as <-. repeat split; try congruence.
    + now apply (Husable info).
    + exact (SpanInfo_init_error _ _ _ _ _ _ _ _ _ Ei).
Qed.

Lemma build_span_errors_witness :
  (s_text (run "Broken" 0) = None
   /\ Exn ValueError "Font size must be positive" = Exn KeyError "'text'")
  \/ (s_text (run "Broken" 0) <> None
      /\ _parse_font_info (run "Broken" 0)
         = Err (Exn ValueError "Font size must be positive")
      /\ (exn_cls (Exn ValueError "Font size must be positive") = TypeError
          \/ exn_cls (Exn ValueError "Font size must be positive") = AttributeError))
  \/ (s_text (run "Broken" 0) <> None /\ font_usable (run "Broken" 0) = true
      /\ s_bbox (run "Broken" 0) = None
      /\ Exn ValueError "Font size must be positive" = Exn KeyError "'bbox'")
  \/ (s_text (run "Broken" 0) <> None /\ font_usable (run "Broken" 0) = true
      /\ s_bbox (run "Broken" 0) <> None /\ s_size (run "Broken" 0) = None
      /\ Exn ValueError "Font size must be positive" = Exn KeyError "'size'")
  \/ (s_text (run "Broken" 0) <> None /\ font_usable (run "Broken" 0) = true
      /\ s_bbox (run "Broken" 0) <> None /\ s_size (run "Broken" 0) <> None
      /\ exn_cls (Exn ValueError "Font size must be positive") = ValueError).
Proof.
  refine (build_span_errors (run "Broken" 0) 1
            (Exn ValueError "Font size must be positive") _).
  reflexivity.
Defined.

(** A run whose font name is [None] fails on the font, before its box and
    its size are looked up; with both style bits set it builds its record,
    which holds [None] as font. *)
Example build_span_font_none :
  build_span {| s_text := Some "Title"; s_bbox := None; s_size := None;
                s_font := Some NoneObj; s_flags := Some (Int 0);
                s_color := None |} 1
  = Err (Exn AttributeError "'NoneType' object has no attribute 'lower'")
  /\ build_span {| s_text := Some "Title";
                   s_bbox := Some [Fin 10; Fin 10; Fin 100; Fin 25];
                   s_size := Some (Fin 12); s_font := Some NoneObj;
                   s_flags := Some (Int 18); s_color := None |} 1
     = Ok (Some {| text := "Title"; bbox := (Fin 10, Fin 10, Fin 100, Fin 25);
                   size := Fin 12; page := 1; font := NoneObj; is_bold := true;
                   is_italic := true; color := "black" |}).
Proof. split; reflexivity. Qed.

(** ** The record constructor, style and special characters *)

(** X7: when several invariants are violated at once the constructor reports
    the first in the order page, size, box: a page below 1 is reported
    whatever the size and the box are, and a size that is [<= 0] is reported
    whatever the box is. *)
Theorem SpanInfo_init_first_violation :
  forall (t : string) (b : list num) (sz : num) (p : Z) (f : obj)
         (bold italic : bool) (c : string),
    (p < 1 ->
       SpanInfo_init t b sz p f bold italic c
       = Err (Exn ValueError "Page number must be positive"))
    /\ (1 <= p -> num_le sz (Fin 0) = true ->
       SpanInfo_init t b sz p f bold italic c
       = Err (Exn ValueError "Font size must be positive"))
    /\ (1 <= p -> num_le sz (Fin 0) = false -> List.length b <> 4%nat ->
       SpanInfo_init t b sz p f bold italic c
       = Err (Exn ValueError "BBox must have 4 coordinates")).
Proof.
  intros t b sz p f bold italic c. unfold SpanInfo_init. repeat split.
  - intros Hp. destruct (Z.ltb_spec p 1); [reflexivity | lia].
  - intros Hp Hs. destruct (Z.ltb_spec p 1); [lia|]. now rewrite Hs.
  - intros Hp Hs Hb. destruct (Z.ltb_spec p 1); [lia|]. rewrite Hs.
    destruct b as [|x1 [|y1 [|x2 [|y2 [|z b]]]]]; try reflexivity.
    now elim Hb.
Qed.

Lemma lower_app (a b : string) : lower (a ++ b) = lower a ++ lower b.
Proof. induction a as [|c a IH]; simpl; [reflexivity | now rewrite IH]. Qed.

Lemma contains_embedded (sub s pre post : string) :
  contains sub s = true -> contains sub (pre ++ s ++ post) = true.
Proof.
  rewrite !contains_spec. intros (p1 & p2 & ->).
  exists (pre ++ p1), (p2 ++ post). now rewrite !append_assoc.
Qed.

Lemma truthy_land_lor (g h : Z) (k : Z) :
  0 <= k -> truthy (Z.land g (2 ^ k)) = true ->
  truthy (Z.land (Z.lor g h) (2 ^ k)) = true.
Proof.
  intros Hk. rewrite !truthy_land_pow2 by assumption.
  rewrite Z.lor_spec. intros ->. reflexivity.
Qed.

(** X8: bold and italic are never lost by adding to a run: setting further
    bits in the flags, or putting text before and after the font name, keeps
    a style that was found. *)
Theorem parse_font_info_monotone :
  forall (f pre post : string) (g h : Z),
    exists info info',
      _parse_font_info (font_only f g) = Ok info
      /\ _parse_font_info (font_only (pre ++ f ++ post) (Z.lor g h)) = Ok info'
      /\ (fi_is_bold info = true -> fi_is_bold info' = true)
      /\ (fi_is_italic info = true -> fi_is_italic info' = true).
Proof.
  intros f pre post g h. eexists. eexists.
  split; [apply (parse_font_info_typed _ f g); reflexivity|].
  split; [apply (parse_font_info_typed _ (pre ++ f ++ post) (Z.lor g h)); reflexivity|].
  cbn [fi_is_bold fi_is_italic].
  rewrite !lower_app, !orb_true_iff. split; intros [H|H].
  - left. exact (truthy_land_lor g h 4 ltac:(lia) H).
  - right. now apply contains_embedded.
  - left. exact (truthy_land_lor g h 1 ltac:(lia) H).
  - right. now apply contains_embedded.
Qed.

Lemma count_chars_bounds (p : ascii -> bool) (t : string) :
  0 <= count_chars p t <= len t.
Proof.
  unfold len. induction t as [|c t IH]; simpl String.length; simpl count_chars.
  - lia.
  - destruct (p c); lia.
Qed.

Lemma count_chars_all (p : ascii -> bool) (t : string) :
  all_chars p t = true -> count_chars p t = len t.
Proof.
  unfold len. induction t as [|c t IH]; simpl; [reflexivity|].
  intros H. apply andb_true_iff in H. destruct H as [Hc Ht].
  rewrite Hc, (IH Ht). lia.
Qed.

Lemma count_chars_none (p : ascii -> bool) (t : string) :
  all_chars (fun c => negb (p c)) t = true -> count_chars p t = 0.
Proof.
  induction t as [|c t IH]; simpl; [reflexivity|].
  intros H. apply andb_true_iff in H. destruct H as [Hc Ht].
  apply negb_true_iff in Hc. rewrite Hc, (IH Ht). reflexivity.
Qed.

Lemma ratio_lt_three_tenths (a n : Z) :
  0 < n -> ((inject_Z a / inject_Z n < 3 # 10)%Q <-> 10 * a < 3 * n).
Proof.
  intros Hn. destruct n as [|n|n]; try lia.
  unfold Qlt, Qdiv, Qmult, Qinv, inject_Z. simpl Qnum. simpl Qden. lia.
Qed.

(** X9: the test on special characters in whole numbers: a text is rejected
    exactly when it has three characters or more and ten times its count of
    alphanumeric characters is below three times its length. *)
Theorem is_mostly_special_chars_integers :
  forall t : string,
    _is_mostly_special_chars t = true
    <-> 3 <= len t /\ 10 * count_chars char_isalnum t < 3 * len t.
Proof.
  intros t. unfold _is_mostly_special_chars.
  destruct (Z.ltb_spec (len t) 3) as [Hl|Hl].
  - split; [discriminate | intros [H _]; lia].
  - rewrite Qlt_bool_iff, ratio_lt_three_tenths by lia. tauto.
Qed.

(** X10: a text made of alphanumeric characters only is never rejected as
    mostly special, whatever its length; a text of three characters or more
    without any alphanumeric character always is; and a text of exactly
    three characters is rejected only when it has no alphanumeric character
    at all. *)
Theorem is_mostly_special_chars_extremes :
  forall t : string,
    (all_chars char_isalnum t = true -> _is_mostly_special_chars t = false)
    /\ (3 <= len t -> all_chars (fun c => negb (char_isalnum c)) t = true ->
        _is_mostly_special_chars t = true)
    /\ (len t <= 3 -> _is_mostly_special_chars t = true ->
        count_chars char_isalnum t = 0).
Proof.
  intros t. pose proof (count_chars_bounds char_isalnum t) as Hb.
  assert (Hint : _is_mostly_special_chars t = true
                 <-> 3 <= len t /\ 10 * count_chars char_isalnum t < 3 * len t).
  { unfold _is_mostly_special_chars.
    destruct (Z.ltb_spec (len t) 3) as [Hl|Hl].
    - split; [discriminate | intros [H _]; lia].
    - rewrite Qlt_bool_iff, ratio_lt_three_tenths by lia. tauto. }
  repeat split.
  - intros Hall. apply not_true_is_false. intros E.
    apply Hint in E. rewrite (count_chars_all _ _ Hall) in E. lia.
  - intros Hl Hnone. apply Hint. rewrite (count_chars_none _ _ Hnone). lia.
  - intros Hl Hrej. apply Hint in Hrej. lia.
Qed.

(** ** The filter, composed *)

Lemma filter_length_bound {A : Type} (p : A -> bool) (l : list A) :
  (List.length (filter p l) <= List.length l)%nat.
Proof.
  induction l as [|x l IH]; simpl; [lia|].
  destruct (p x); simpl; lia.
Qed.

Lemma filter_fixed_iff {A : Type} (p : A -> bool) (l : list A) :
  filter p l = l <-> (forall x, In x l -> p x = true).
Proof.
  induction l as [|x l IH]; simpl.
  - split; [intros _ x [] | reflexivity].
  - destruct (p x) eqn:E.
    + split.
      * intros H. injection H as H. intros y [<-|Hy]; [exact E | now apply IH].
      * intros H. f_equal. apply IH. intros y Hy. apply H. now right.
    + split.
      * intros H. pose proof (filter_length_bound p l) as Hl.
        rewrite H in Hl. simpl in Hl. lia.
      * intros H. specialize (H x (or_introl eq_refl)). congruence.
Qed.

Lemma filter_commute {A : Type} (p q : A -> bool) (l : list A) :
  filter p (filter q l) = filter q (filter p l).
Proof.
  induction l as [|x l IH]; simpl; [reflexivity|].
  destruct (q x) eqn:Eq; destruct (p x) eqn:Ep; simpl;
    rewrite ?Eq, ?Ep, IH; reflexivity.
Qed.

Lemma filter_absorb {A : Type} (p q : A -> bool) (l : list A) :
  (forall x, p x = true -> q x = true) ->
  filter p (filter q l) = filter p l.
Proof.
  intros Himp. induction l as [|x l IH]; simpl; [reflexivity|].
  destruct (p x) eqn:Ep.
  - rewrite (Himp x Ep). simpl. now rewrite Ep, IH.
  - destruct (q x); simpl; rewrite ?Ep; exact IH.
Qed.

(** X11: the filter treats each record on its own: filtering two lists put
    together gives the two filtered lists put together, so it does not
    matter whether pages are filtered one by one or all at once. *)
Theorem filter_spans_app :
  forall (self : PDFTextExtractor) (a b : list SpanInfo),
    _filter_spans self (a ++ b)%list
    = (_filter_spans self a ++ _filter_spans self b)%list.
Proof.
  intros self a b. rewrite !filter_spans_filter. apply filter_app.
Qed.

Lemma keeps_wider (narrow wide : PDFTextExtractor) (r : SpanInfo) :
  num_le (min_font_size wide) (min_font_size narrow) = true ->
  num_le (max_font_size narrow) (max_font_size wide) = true ->
  keeps narrow r = true -> keeps wide r = true.
Proof.
  intros Hmin Hmax. rewrite !keeps_iff. unfold accepted, size_in_range.
  intros ((Hlo & Hhi) & Hrest). split; [|exact Hrest]. split.
  - eapply num_le_trans; eassumption.
  - eapply num_le_trans; eassumption.
Qed.

(** X12: narrowing the size interval only removes records: what a narrower
    interval keeps is a subsequence of what a wider one keeps, and filtering
    the wider result again with the narrower interval gives the narrower
    result. *)
Theorem filter_spans_narrower :
  forall (narrow wide : PDFTextExtractor) (spans : list SpanInfo),
    num_le (min_font_size wide) (min_font_size narrow) = true ->
    num_le (max_font_size narrow) (max_font_size wide) = true ->
    _filter_spans narrow (_filter_spans wide spans) = _filter_spans narrow spans
    /\ subseq (_filter_spans narrow spans) (_filter_spans wide spans).
Proof.
  intros narrow wide spans Hmin Hmax.
  assert (Heq : _filter_spans narrow (_filter_spans wide spans)
                = _filter_spans narrow spans).
  { rewrite !filter_spans_filter. apply filter_absorb.
    intros r. now apply keeps_wider. }
  split; [exact Heq|].
  rewrite <- Heq, (filter_spans_filter narrow). apply filter_subseq.
Qed.

Lemma filter_spans_narrower_witness :
  let spans := [sample_span "Title" 30 (0, 0, 100, 20)%Q;
                sample_span "Body" 11 (0, 30, 100, 50)%Q;
                sample_span "Note" 7 (0, 60, 100, 70)%Q] in
  let narrow := {| min_font_size := Fin 10; max_font_size := Fin 20 |} in
  _filter_spans narrow (_filter_spans default_extractor spans)
  = _filter_spans narrow spans
  /\ subseq (_filter_spans narrow spans) (_filter_spans default_extractor spans).
Proof.
  cbv zeta.
  apply (filter_spans_narrower {| min_font_size := Fin 10; max_font_size := Fin 20 |}
           default_extractor).
  - reflexivity.
  - reflexivity.
Defined.

(** X13: two filters with different size intervals commute. *)
Theorem filter_spans_commute :
  forall (a b : PDFTextExtractor) (spans : list SpanInfo),
    _filter_spans a (_filter_spans b spans) = _filter_spans b (_filter_spans a spans).
Proof.
  intros a b spans. rewrite !filter_spans_filter. apply filter_commute.
Qed.

(** X14: the filter returns its input unchanged exactly when every record
    of the input gets through the four tests as the code makes them, which is
    the case when every record passes them in the specification's words; the
    result is never longer than the input, and of the same length only when
    it is the input. *)
Theorem filter_spans_fixed_iff :
  forall (self : PDFTextExtractor) (spans : list SpanInfo),
    (_filter_spans self spans = spans <-> (forall r, In r spans -> accepted self r))
    /\ ((forall r, In r spans -> passes self r) -> _filter_spans self spans = spans)
    /\ (List.length (_filter_spans self spans) <= List.length spans)%nat
    /\ (List.length (_filter_spans self spans) = List.length spans ->
        _filter_spans self spans = spans).
Proof.
  intros self spans. rewrite filter_spans_filter. split; [|split; [|split]].
  - rewrite filter_fixed_iff. split; intros H r Hr; apply keeps_iff; now apply H.
  - intros H. apply filter_fixed_iff. intros r Hr. apply passes_keeps. now apply H.
  - apply filter_length_bound.
  - induction spans as [|r spans IH]; simpl; [reflexivity|].
    destruct (keeps self r); simpl.
    + intros H. f_equal. apply IH. lia.
    + intros H. pose proof (filter_length_bound (keeps self) spans). lia.
Qed.

(** ** Pages *)

(** The steps of a page fall into the runs that build without raising and,
    after them, nothing or a step that raises. *)
Lemma steps_first_failure (page_num : Z) (steps : list step) :
  exists before rest,
    steps = (map Run before ++ rest)%list
    /\ (forall span, In span before -> exists o, build_span span page_num = Ok o)
    /\ (rest = [] \/ exists st rest' e, rest = st :: rest' /\ step_raises page_num st e).
Proof.
  induction steps as [|st steps (before & rest & Hs & Hok & Hrest)].
  - exists [], []. repeat split; [intros span [] | now left].
  - destruct st as [span|e].
    + destruct (build_span span page_num) as [o|e] eqn:Eb.
      * exists (span :: before), rest. split; [simpl; now rewrite Hs|].
        split; [|exact Hrest].
        intros sp [<-|Hin]; [now exists o | now apply Hok].
      * exists [], (Run span :: steps). split; [reflexivity|].
        split; [intros sp []|]. right. now exists (Run span), steps, e.
    + exists [], (Fault e :: steps). split; [reflexivity|].
      split; [intros sp []|]. right. now exists (Fault e), steps, e.
Qed.

Lemma do_step_raises (page_num : Z) (st : step) (e : exn) (rest : list step)
    (s : list SpanInfo) :
  step_raises page_num st e ->
  for_each (st :: rest) (do_step page_num) s = (Err e, s).
Proof.
  intros Hr. cbn [for_each]. unfold bind at 1.
  destruct st as [span|e']; cbn [step_raises do_step] in *.
  - unfold walk_span, bind, lift. now rewrite Hr.
  - now subst.
Qed.

(** X15: for every page, whatever it holds, [_extract_page_spans] returns
    normally with the records of the runs that come, in block, line and run
    order, before the first point that raises, a run whose record cannot be
    built or a fault of the structure, and with one warning for that point;
    when no point raises, with the records of all the runs and no warning. *)
Theorem extract_page_spans_first_failure :
  forall (pg : RawPage) (page_num : Z) (log : Log),
    exists before rest,
      page_steps pg = (map Run before ++ rest)%list
      /\ (forall span, In span before -> exists o, build_span span page_num = Ok o)
      /\ ((rest = []
           /\ _extract_page_spans pg page_num log
              = (Ok (records_of page_num before), log))
          \/ (exists st rest' e,
                rest = st :: rest' /\ step_raises page_num st e
                /\ _extract_page_spans pg page_num log
                   = (Ok (records_of page_num before),
                      (log ++ [page_warning page_num e])%list))).
Proof.
  intros pg page_num log.
  destruct (steps_first_failure page_num (page_steps pg))
    as (before & rest & Hs & Hok & Hrest).
  exists before, rest. split; [exact Hs|]. split; [exact Hok|].
  unfold _extract_page_spans. rewrite walk_page_steps, Hs.
  rewrite for_each_runs_ok by exact Hok.
  destruct Hrest as [-> | (st & rest' & e & -> & Hr)].
  - left. split; reflexivity.
  - right. exists st, rest', e. split; [reflexivity|]. split; [exact Hr|].
    now rewrite (do_step_raises _ _ _ _ _ Hr).
Qed.

Lemma for_each_steps_Forall (P : SpanInfo -> Prop) (page_num : Z) :
  (forall span r, build_span span page_num = Ok (Some r) -> P r) ->
  forall (steps : list step) (s : list SpanInfo),
    Forall P s -> Forall P (snd (for_each steps (do_step page_num) s)).
Proof.
  intros Hbuild. induction steps as [|st steps IH]; intros s Hs; [exact Hs|].
  cbn [for_each]. unfold bind at 1.
  destruct st as [span|e]; cbn [do_step].
  - unfold walk_span, bind, lift.
    destruct (build_span span page_num) as [[r|]|e] eqn:Eb; cbn [modify ret].
    + apply IH. apply Forall_app. split; [exact Hs|].
      constructor; [now apply (Hbuild span) | constructor].
    + now apply IH.
    + exact Hs.
  - exact Hs.
Qed.

Lemma page_records_built (page : RawPage) (page_num : Z) :
  Forall (built_on page_num) (page_records page page_num).
Proof.
  unfold page_records. rewrite walk_page_steps.
  apply for_each_steps_Forall; [|constructor].
  intros span r Hr.
  destruct (build_span_cases span page_num)
    as [(Ht & H) | [(t & Ht & Hs & H) | [(t & e & Ht & Hs & Hf & H)
       | [(t & info & Ht & Hs & Hf & Hb & H)
         | [(t & info & b & Ht & Hs & Hf & Hb & Hz & H)
           | (t & info & b & sz & c & Ht & Hs & Hf & Hb & Hz & Hc & H)]]]]];
    rewrite H in Hr; try discriminate.
  destruct (SpanInfo_init _ _ _ _ _ _ _ _) as [r'|e] eqn:Ei; [|discriminate].
  injection Hr as <-.
  destruct (SpanInfo_init_valid _ _ _ _ _ _ _ _ _ Ei) as (Hp & Hpos & _).
  destruct (SpanInfo_init_fields _ _ _ _ _ _ _ _ _ Ei) as (Et & _ & Esz & Ep & _).
  unfold built_on. rewrite Et, Esz, Ep. repeat split; try assumption.
  apply strip_idempotent.
Qed.

(** X16: every record that [_extract_page_spans] returns, also from a page
    whose walk was cut short, carries the number of the page, which is at
    least 1, holds non-empty text without white space around it, and has a
    size that is not [<= 0]. *)
Theorem extract_page_spans_records_built :
  forall (pg : RawPage) (page_num : Z) (log : Log) (r : SpanInfo),
    In r (page_records pg page_num) ->
    fst (_extract_page_spans pg page_num log) = Ok (page_records pg page_num)
    /\ page r = page_num /\ 1 <= page_num
    /\ strip (text r) = text r /\ text r <> ""
    /\ num_le (size r) (Fin 0) = false.
Proof.
  intros pg page_num log r Hin.
  split; [now rewrite extract_page_spans_total|].
  pose proof (page_records_built pg page_num) as Hall.
  rewrite Forall_forall in Hall. exact (Hall r Hin).
Qed.

Lemma extract_page_spans_records_built_witness :
  fst (_extract_page_spans torn_page 2 []) = Ok (page_records torn_page 2)
  /\ page (record "Alpha" 12 2) = 2 /\ 1 <= 2
  /\ strip (text (record "Alpha" 12 2)) = text (record "Alpha" 12 2)
  /\ text (record "Alpha" 12 2) <> ""
  /\ num_le (size (record "Alpha" 12 2)) (Fin 0) = false.
Proof.
  refine (extract_page_spans_records_built torn_page 2 [] (record "Alpha" 12 2) _).
  left. reflexivity.
Defined.

(** X17: on a page where nothing raises, every run that is not blank yields
    its record, in block, line and run order, and nothing is logged. *)
Theorem extract_page_spans_clean_page :
  forall (page : RawPage) (page_num : Z) (runs : list RawSpan) (log : Log),
    page_steps page = map Run runs ->
    (forall span, In span runs -> exists o, build_span span page_num = Ok o) ->
    _extract_page_spans page page_num log = (Ok (records_of page_num runs), log).
Proof.
  intros page page_num runs log Hsteps Hruns. unfold _extract_page_spans.
  rewrite (walk_page_no_failure _ _ _ Hsteps Hruns). reflexivity.
Qed.

Lemma extract_page_spans_clean_page_witness :
  _extract_page_spans (page_of [run "Introduction" 14; run "   " 0; run "Summary" 12])
    4 ["earlier"]
  = (Ok [record "Introduction" 14 4; record "Summary" 12 4], ["earlier"]).
Proof.
  refine (extract_page_spans_clean_page
            (page_of [run "Introduction" 14; run "   " 0; run "Summary" 12]) 4
            [run "Introduction" 14; run "   " 0; run "Summary" 12] ["earlier"] _ _).
  - reflexivity.
  - intros span [<-|[<-|[<-|[]]]]; eexists; reflexivity.
Defined.

Lemma block_steps_no_lines (blocks : list RawBlock) :
  flat_map block_steps (filter has_lines blocks) = flat_map block_steps blocks.
Proof.
  induction blocks as [|block blocks IH]; [reflexivity|].
  cbn [filter flat_map]. unfold has_lines at 1, block_steps at 2.
  destruct (b_lines block) as [lines|] eqn:E.
  - cbn [flat_map]. unfold block_steps at 1. rewrite E. now rewrite IH.
  - exact IH.
Qed.

(** X18: blocks without a "lines" entry (image blocks) are passed over
    without effect: a page gives the same records and the same log with
    them as without them. *)
Theorem extract_page_spans_ignores_image_blocks :
  forall (blocks : list RawBlock) (page_num : Z) (log : Log),
    _extract_page_spans {| p_blocks := Ok blocks |} page_num log
    = _extract_page_spans {| p_blocks := Ok (filter has_lines blocks) |} page_num log.
Proof.
  intros blocks page_num log. unfold _extract_page_spans.
  rewrite !walk_page_steps. unfold page_steps. cbn [p_blocks].
  now rewrite block_steps_no_lines.
Qed.

(** ** Documents *)

Lemma StronglySorted_app {A : Type} (R : A -> A -> Prop) (l1 l2 : list A) :
  StronglySorted R l1 -> StronglySorted R l2 ->
  (forall a b, In a l1 -> In b l2 -> R a b) ->
  StronglySorted R (l1 ++ l2).
Proof.
  intros H1 H2 Hcross. induction H1 as [|a l1 Hs IH Ha]; [exact H2|].
  simpl. constructor.
  - apply IH. intros x y Hx Hy. apply Hcross; [now right | exact Hy].
  - apply Forall_app. split; [exact Ha|].
    apply Forall_forall. intros y Hy. apply Hcross; [now left | exact Hy].
Qed.

Lemma StronglySorted_filter {A : Type} (R : A -> A -> Prop) (p : A -> bool)
    (l : list A) :
  StronglySorted R l -> StronglySorted R (filter p l).
Proof.
  intros H. induction H as [|a l Hs IH Ha]; simpl; [constructor|].
  destruct (p a); [|exact IH].
  constructor; [exact IH|].
  apply Forall_forall. intros y Hy. apply filter_In in Hy.
  rewrite Forall_forall in Ha. now apply Ha.
Qed.

Lemma same_page_sorted (n : Z) (l : list SpanInfo) :
  Forall (built_on n) l -> StronglySorted page_le l.
Proof.
  induction 1 as [|r l Hr Hl IH]; constructor; [exact IH|].
  apply Forall_forall. intros y Hy. rewrite Forall_forall in Hl.
  unfold page_le. destruct Hr as [-> _]. destruct (Hl y Hy) as [-> _]. lia.
Qed.

(** The records of a document from page number [n] on are in page order,
    each built on a page of the document. *)
Lemma doc_records_ordered (pages : list RawPage) :
  forall n,
    StronglySorted page_le (doc_records pages n)
    /\ Forall (fun r => n <= page r < n + Z.of_nat (List.length pages)
                        /\ built_on (page r) r)
              (doc_records pages n).
Proof.
  induction pages as [|pg rest IH]; intros n; cbn [doc_records List.length].
  - split; constructor.
  - destruct (IH (n + 1)) as [Hsorted Hbounds].
    pose proof (page_records_built pg n) as Hpg.
    split.
    + apply StronglySorted_app; [now apply (same_page_sorted n) | exact Hsorted|].
      intros a b Ha Hb. rewrite Forall_forall in Hpg, Hbounds.
      destruct (Hpg a Ha) as [Ea _]. destruct (Hbounds b Hb) as [Hb' _].
      unfold page_le. lia.
    + apply Forall_app. split.
      * apply Forall_forall. intros r Hr. rewrite Forall_forall in Hpg.
        pose proof (Hpg r Hr) as Hbuilt. destruct Hbuilt as [Ep Hrest].
        split; [lia|]. rewrite Ep. exact (conj Ep Hrest).
      * eapply Forall_impl; [|exact Hbounds].
        intros r [Hr Hb]. split; [lia | exact Hb].
Qed.

(** X19: the records that [extract_text_spans] returns are in page order,
    and each carries the number of a page of the document, counted from 1. *)
Theorem extract_text_spans_page_order :
  forall (fitz_open : DocumentSource) (self : PDFTextExtractor)
         (pdf_path : string) (log : Log) (doc : list RawPage),
    fitz_open pdf_path = Ok doc ->
    exists spans,
      fst (extract_text_spans fitz_open self pdf_path log) = Ok spans
      /\ StronglySorted page_le spans
      /\ Forall (fun r => 1 <= page r <= Z.of_nat (List.length doc)) spans.
Proof.
  intros fitz_open self pdf_path log doc Hopen.
  rewrite extract_text_spans_outcome, Hopen. cbn [fst].
  exists (_filter_spans self (doc_records doc 1)). split; [reflexivity|].
  destruct (doc_records_ordered doc 1) as [Hsorted Hbounds].
  rewrite filter_spans_filter. split.
  - now apply StronglySorted_filter.
  - apply Forall_forall. intros r Hr. apply filter_In in Hr. destruct Hr as [Hr _].
    rewrite Forall_forall in Hbounds. destruct (Hbounds r Hr) as [Hb _]. lia.
Qed.

Lemma extract_text_spans_page_order_witness :
  exists spans,
    fst (extract_text_spans three_pages default_extractor "doc.pdf" []) = Ok spans
    /\ StronglySorted page_le spans
    /\ Forall (fun r => 1 <= page r <= 3) spans.
Proof.
  refine (extract_text_spans_page_order three_pages default_extractor "doc.pdf" []
            [page_of [run "Introduction" 14]; torn_page; page_of [run "Summary" 12]] _).
  reflexivity.
Defined.



Lemma doc_filtered_eq (self : PDFTextExtractor) (pages : list RawPage) :
  forall n, _filter_spans self (doc_records pages n) = doc_filtered self pages n.
Proof.
  induction pages as [|pg rest IH]; intros n; [reflexivity|].
  cbn [doc_records doc_filtered].
  rewrite !filter_spans_filter, filter_app, <- !filter_spans_filter.
  now rewrite IH.
Qed.

(** X21: what a document yields is what its pages yield one by one: the
    result of [extract_text_spans] is the concatenation, in page order, of
    the filtered records of each page, so the records accepted from one page
    do not depend on the other pages. *)
Theorem extract_text_spans_page_by_page :
  forall (fitz_open : DocumentSource) (self : PDFTextExtractor)
         (pdf_path : string) (log : Log) (doc : list RawPage),
    fitz_open pdf_path = Ok doc ->
    fst (extract_text_spans fitz_open self pdf_path log)
    = Ok (doc_filtered self doc 1).
Proof.
  intros fitz_open self pdf_path log doc Hopen.
  rewrite extract_text_spans_outcome, Hopen. cbn [fst].
  now rewrite doc_filtered_eq.
Qed.

Lemma extract_text_spans_page_by_page_witness :
  fst (extract_text_spans three_pages default_extractor "doc.pdf" [])
  = Ok (doc_filtered default_extractor
          [page_of [run "Introduction" 14]; torn_page; page_of [run "Summary" 12]] 1).
Proof.
  refine (extract_text_spans_page_by_page three_pages default_extractor "doc.pdf" []
            [page_of [run "Introduction" 14]; torn_page; page_of [run "Summary" 12]] _).
  reflexivity.
Defined.

(** X22: every record that [extract_text_spans] returns got through the
    four tests of the code and holds trimmed text: its size lies in the
    interval, its text has two characters or more with no white space around
    them and is not mostly special characters, and no comparison rejects its
    box; when no coordinate of the box is NaN, it passes the four tests in
    the specification's words, with the length of the trimmed text. *)
Theorem extract_text_spans_records_pass :
  forall (fitz_open : DocumentSource) (self : PDFTextExtractor)
         (pdf_path : string) (log : Log) (spans : list SpanInfo) (r : SpanInfo),
    fst (extract_text_spans fitz_open self pdf_path log) = Ok spans ->
    In r spans ->
    accepted self r
    /\ strip (text r) = text r /\ 2 <= len (strip (text r))
    /\ 1 <= page r
    /\ (no_nan (bbox r) -> passes self r /\ passes_trimmed self r).
Proof.
  intros fitz_open self pdf_path log spans r Hrun Hin.
  rewrite extract_text_spans_outcome in Hrun.
  destruct (fitz_open pdf_path) as [doc|e]; [|discriminate].
  cbn [fst] in Hrun. injection Hrun as <-.
  rewrite filter_spans_filter in Hin. apply filter_In in Hin.
  destruct Hin as [Hin Hkeep].
  destruct (doc_records_ordered doc 1) as [_ Hbuilt].
  rewrite Forall_forall in Hbuilt.
  destruct (Hbuilt r Hin) as (_ & _ & Hp & Htrim & _ & _).
  pose proof (proj1 (keeps_iff self r) Hkeep) as Hacc.
  split; [exact Hacc|]. split; [exact Htrim|].
  split; [rewrite Htrim; apply Hacc|]. split; [exact Hp|].
  intros Hn. pose proof (keeps_passes self r Hn Hkeep) as Hpass.
  split; [exact Hpass|]. unfold passes_trimmed. rewrite Htrim. exact Hpass.
Qed.

Lemma extract_text_spans_records_pass_witness :
  accepted default_extractor (record "Alpha" 12 2)
  /\ strip (text (record "Alpha" 12 2)) = text (record "Alpha" 12 2)
  /\ 2 <= len (strip (text (record "Alpha" 12 2)))
  /\ 1 <= page (record "Alpha" 12 2)
  /\ (no_nan (bbox (record "Alpha" 12 2)) ->
      passes default_extractor (record "Alpha" 12 2)
      /\ passes_trimmed default_extractor (record "Alpha" 12 2)).
Proof.
  refine (extract_text_spans_records_pass three_pages default_extractor "doc.pdf" []
            [record "Introduction" 14 1; record "Alpha" 12 2; record "Summary" 12 3]
            (record "Alpha" 12 2) _ _).
  - reflexivity.
  - right. left. reflexivity.
Defined.

(** X23: the module-level [extract_text_spans] is the extraction with the
    interval from 6 to 72: it returns and logs what
    [extract_text_spans_enhanced] does with these bounds, and every record
    it returns has a size from 6 to 72, both included. *)
Theorem extract_text_spans_default_bounds :
  forall (fitz_open : DocumentSource) (pdf_path : string) (log : Log),
    extract_text_spans_default fitz_open pdf_path log
    = extract_text_spans_enhanced fitz_open pdf_path (Fin 6) (Fin 72) log
    /\ (forall spans r,
          fst (extract_text_spans_default fitz_open pdf_path log) = Ok spans ->
          In r spans ->
          num_le (Fin 6) (size r) = true /\ num_le (size r) (Fin 72) = true).
Proof.
  intros fitz_open pdf_path log. split; [reflexivity|].
  intros spans r Hrun Hin. unfold extract_text_spans_default in Hrun.
  rewrite extract_text_spans_outcome in Hrun.
  destruct (fitz_open pdf_path) as [doc|e]; [|discriminate].
  cbn [fst] in Hrun. injection Hrun as <-.
  rewrite filter_spans_filter in Hin. apply filter_In in Hin.
  destruct Hin as [_ Hkeep]. apply keeps_iff in Hkeep.
  destruct Hkeep as (Hrange & _). exact Hrange.
Qed.

(** ** Boxes *)

